(** * The memo application: the summarize route and the memo detail modal

    A shallow embedding of two units of the application:

    - the route handler [POST] of the summarize endpoint, which forwards the
      text of a memo to the generative-language provider and answers with the
      provider's text;
    - the component [MemoDetailModal], which shows one memo and keeps the
      transient state of the summary (the text and the in-progress flag).

    JavaScript strings are represented by the bytes of their UTF-8 encoding,
    so that concatenation and the test for the empty string are those of
    the program. *)

From Stdlib Require Import String List ZArith Bool Arith Lia.
From Stdlib Require Import Floats.SpecFloat.
Import ListNotations.

Open Scope string_scope.

Set Warnings "-register-all".

(** * The JavaScript values the program handles *)

Module Js.

(** The result of [JSON.parse]: a number is an IEEE 754 double; the members of
    an object are listed in the order of the text. *)
Inductive json : Type :=
| JNull
| JBool (b : bool)
| JNumber (n : spec_float)
| JString (s : string)
| JArray (elements : list json)
| JObject (members : list (string * json)).

(** A value read from a property: [None] is [undefined]. *)
Definition value : Type := option json.

(** The last member named [key]: [JSON.parse] keeps the last of repeated
    members. *)
Fixpoint lookup (key : string) (members : list (string * json)) : value :=
  match members with
  | [] => None
  | (k, v) :: rest =>
      match lookup key rest with
      | Some w => Some w
      | None => if k =? key then Some v else None
      end
  end.

(** [v.key] for a value [v] that is neither [null] nor [undefined]: only an
    object built by [JSON.parse] carries properties of its own, and no
    prototype of a parsed value defines [content]. *)
Definition get_property (key : string) (v : json) : value :=
  match v with
  | JObject members => lookup key members
  | _ => None
  end.

(** [!!v] *)
Definition ToBoolean (v : value) : bool :=
  match v with
  | None => false
  | Some JNull => false
  | Some (JBool b) => b
  | Some (JNumber (S754_zero _)) => false
  | Some (JNumber S754_nan) => false
  | Some (JNumber _) => true
  | Some (JString s) => negb (s =? "")
  | Some (JArray _) => true
  | Some (JObject _) => true
  end.

(** What a program throws: an instance of [Error] with its message, or any
    other value. *)
Inductive thrown : Type :=
| ErrorObject (message : string)
| NonError.

(** An evaluation either returns or throws. *)
Inductive outcome (A : Type) : Type :=
| Returned (a : A)
| Threw (e : thrown).
Arguments Returned {A} a.
Arguments Threw {A} e.

(** [Array.prototype.join], given the conversion of one element: the
    elements are converted from left to right and the first conversion that
    throws ends the whole. *)
Fixpoint join_with (convert : json -> outcome string) (es : list json)
  : outcome (list string) :=
  match es with
  | [] => Returned []
  | e :: rest =>
      match convert e with
      | Threw t => Threw t
      | Returned s =>
          match join_with convert rest with
          | Returned ss => Returned (s :: ss)
          | Threw t => Threw t
          end
      end
  end.

Section Conversions.

(** [Number.prototype.toString] is the runtime's. *)
Variable number_to_string : spec_float -> string.

(** The message of the [TypeError] the engine raises when an object has no
    primitive value. *)
Variable to_primitive_message : string.

(** The string a value contributes to a template literal.  An array joins
    its elements with a comma, [null] elements giving the empty string.  An
    object gives [[object Object]] through [Object.prototype.toString],
    unless a member of its own named [toString] hides it: no parsed value is
    callable, the inherited [valueOf] returns the object itself, and the
    conversion throws. *)
Fixpoint JsonToString (v : json) : outcome string :=
  match v with
  | JNull => Returned "null"
  | JBool true => Returned "true"
  | JBool false => Returned "false"
  | JNumber n => Returned (number_to_string n)
  | JString s => Returned s
  | JArray elements =>
      match
        join_with
          (fun e => match e with JNull => Returned "" | _ => JsonToString e end)
          elements
      with
      | Returned ss => Returned (String.concat "," ss)
      | Threw t => Threw t
      end
  | JObject members =>
      match lookup "toString" members with
      | Some _ => Threw (ErrorObject to_primitive_message)
      | None => Returned "[object Object]"
      end
  end.

Definition ToString (v : value) : outcome string :=
  match v with
  | None => Returned "undefined"
  | Some j => JsonToString j
  end.

End Conversions.

(** The values that have a text: all but the objects that carry a member
    [toString] of their own, and the arrays that hold such an object. *)
Fixpoint has_text (v : json) : bool :=
  match v with
  | JArray elements => forallb has_text elements
  | JObject members =>
      match lookup "toString" members with
      | Some _ => false
      | None => true
      end
  | _ => true
  end.

End Js.

(** * The route handler of the summarize endpoint (src/unnamed/part_000) *)

Module Summarize.
Import Js.

(** What the handler does to the outside, in order. *)
Inductive effect : Type :=
| GenerateContent (apiKey model prompt : string)
| ConsoleError (label : string) (error : thrown).

(** A computation returns or throws, and appends to the log of effects. *)
Definition M (A : Type) : Type := list effect -> outcome A * list effect.

Definition ret {A : Type} (a : A) : M A := fun log => (Returned a, log).

Definition throw {A : Type} (e : thrown) : M A := fun log => (Threw e, log).

Definition bind {A B : Type} (c : M A) (k : A -> M B) : M B :=
  fun log =>
    match c log with
    | (Returned a, log') => k a log'
    | (Threw e, log') => (Threw e, log')
    end.

Definition emit (e : effect) : M unit :=
  fun log => (Returned tt, (log ++ [e])%list).

(** An evaluation without effects, inside a computation. *)
Definition lift {A : Type} (o : outcome A) : M A := fun log => (o, log).

(** [try { body } catch (error) { handler }] *)
Definition try_catch {A : Type} (body : M A) (handler : thrown -> M A) : M A :=
  fun log =>
    match body log with
    | (Returned a, log') => (Returned a, log')
    | (Threw e, log') => handler e log'
    end.

Notation "x <- c ;; k" := (bind c (fun x => k))
  (at level 61, c at next level, right associativity).
Notation "c ;;; k" := (bind c (fun _ => k))
  (at level 61, right associativity).

(** The body of a response is one of the two objects the handler builds. *)
Inductive ResponseBody : Type :=
| ErrorBody (error : string)
| SummaryBody (summary : string).

Record Response : Type := mkResponse {
  status : Z;
  body : ResponseBody
}.

(** [NextResponse.json(body, { status })]; the status is 200 when none is
    given. *)
Definition NextResponse_json (b : ResponseBody) (init : option Z) : Response :=
  match init with
  | Some st => mkResponse st b
  | None => mkResponse 200 b
  end.

(** A request, as far as the handler reads it: [request.json()] resolves with
    the parsed body or rejects with the [SyntaxError] of the parser. *)
Inductive Request : Type :=
| RequestWithJson (parsed : json)
| RequestMalformed (syntax_error_message : string).

Definition request_json (request : Request) : M json :=
  match request with
  | RequestWithJson parsed => ret parsed
  | RequestMalformed message => throw (ErrorObject message)
  end.

(** [process.env] *)
Definition Env : Type := string -> option string.

(** [!apiKey] for a variable of the environment: unset or empty. *)
Definition unset_or_empty (v : option string) : bool :=
  match v with
  | None => true
  | Some s => s =? ""
  end.

(** The string behind a variable that passed the test above. *)
Definition string_of (v : option string) : string :=
  match v with
  | Some s => s
  | None => ""
  end.

(** The provider's SDK, which is not part of the repository: the client and
    the model are built from the key and the name of the model, and
    [generateContent], [result.response] and [response.text()] then return
    the text for the prompt or throw. *)
Definition Provider : Type := string -> string -> string -> outcome string.

Definition generateContent (provider : Provider) (apiKey model prompt : string)
  : M string :=
  emit (GenerateContent apiKey model prompt) ;;;
  lift (provider apiKey model prompt).

Definition console_error (label : string) (error : thrown) : M unit :=
  emit (ConsoleError label error).

(** The fixed instruction that opens the prompt; it ends with two line
    feeds. *)
Definition instruction : string :=
  "다음 메모 내용을 3줄 이내로 간결하게 요약해줘:

".

Definition model_name : string := "gemini-2.5-flash".

Section Route.

Variable number_to_string : spec_float -> string.

(** The messages of the [TypeError]s the engine raises when [null] is
    destructured and when an object has no primitive value. *)
Variable destructure_null_message : string.
Variable to_primitive_message : string.

(** [const { content } = await request.json()], the destructuring. *)
Definition destructure_content (parsed : json) : M value :=
  match parsed with
  | JNull => throw (ErrorObject destructure_null_message)
  | _ => ret (get_property "content" parsed)
  end.

(** The prompt: the template literal of line 28. *)
Definition prompt_of (content : value) : outcome string :=
  match ToString number_to_string to_primitive_message content with
  | Returned text => Returned (instruction ++ text)
  | Threw e => Threw e
  end.

(** [error instanceof Error ? error.message : 'Failed to generate summary'] *)
Definition message_of (error : thrown) : string :=
  match error with
  | ErrorObject message => message
  | NonError => "Failed to generate summary"
  end.

Definition POST (env : Env) (provider : Provider) (request : Request)
  : M Response :=
  try_catch
    (parsed <- request_json request ;;
     content <- destructure_content parsed ;;
     if negb (ToBoolean content) then
       ret (NextResponse_json (ErrorBody "Content is required") (Some 400%Z))
     else
       let apiKey := env "GEMINI_API_KEY" in
       if unset_or_empty apiKey then
         ret (NextResponse_json
                (ErrorBody "GEMINI_API_KEY is not configured") (Some 500%Z))
       else
         prompt <- lift (prompt_of content) ;;
         summary <- generateContent provider (string_of apiKey) model_name
                      prompt ;;
         ret (NextResponse_json (SummaryBody summary) None))
    (fun error =>
       console_error "Error generating summary:" error ;;;
       ret (NextResponse_json (ErrorBody (message_of error)) (Some 500%Z))).

(** One call of the handler, from an empty log. *)
Definition handle (env : Env) (provider : Provider) (request : Request)
  : outcome Response * list effect :=
  POST env provider request [].

End Route.

End Summarize.

(** * The memo detail modal (src/src/components/MemoDetailModal.tsx) *)

Module MemoDetailModal.
Import Js.

(** Modelled from the spec: the type [Memo] of [@/types/memo], which is not
    among the sources.  The fields are those of the spec's data model, with
    the names under which the component reads them. *)
Record Memo : Type := mkMemo {
  id : string;
  title : string;
  content : string;
  category : string;
  tags : list string;
  createdAt : string;
  updatedAt : string
}.

(** A callback handed down by the parent is known by its identity: two
    renders may pass the same function or a fresh one. *)
Definition Callback : Type := nat.

Record Props : Type := mkProps {
  memo : option Memo;
  isOpen : bool;
  onClose : Callback;
  onEdit : Callback;
  onDelete : Callback
}.

(** What the component does to the outside, in order.  The callbacks and the
    dialogs return to the component. *)
Inductive Call : Type :=
| CallOnClose (f : Callback)
| CallOnEdit (f : Callback) (m : Memo)
| CallOnDelete (f : Callback) (memo_id : string)
| WindowConfirm (message : string)
| WindowAlert (message : string)
| Fetch (url method : string) (payload : json)
| ConsoleError (label : string).

(** A [keydown] listener of the document: the function [handleKeyDown], which
    [useCallback] renews exactly when [onClose] changes, so that within one
    instance it is known by the [onClose] it closes over. *)
Inductive Listener : Type :=
| HandleKeyDown (closes_over : Callback).

Definition Listener_eqb (a b : Listener) : bool :=
  match a, b with
  | HandleKeyDown f, HandleKeyDown g => Nat.eqb f g
  end.

(** One mounted instance: the props of its last render, its two state
    variables, what it has put on the document, the summarize requests that
    have not settled, and the calls it has made. *)
Record Instance : Type := mkInstance {
  props : Props;
  summary : string;
  isSummarizing : bool;
  keydown_listeners : list Listener;
  body_overflow : string;
  in_flight : list string;
  calls : list Call
}.

Definition set_props (p : Props) (s : Instance) : Instance :=
  mkInstance p (summary s) (isSummarizing s) (keydown_listeners s)
             (body_overflow s) (in_flight s) (calls s).

Definition setSummary (text : string) (s : Instance) : Instance :=
  mkInstance (props s) text (isSummarizing s) (keydown_listeners s)
             (body_overflow s) (in_flight s) (calls s).

Definition setIsSummarizing (b : bool) (s : Instance) : Instance :=
  mkInstance (props s) (summary s) b (keydown_listeners s)
             (body_overflow s) (in_flight s) (calls s).

Definition set_listeners (ls : list Listener) (s : Instance) : Instance :=
  mkInstance (props s) (summary s) (isSummarizing s) ls
             (body_overflow s) (in_flight s) (calls s).

Definition set_overflow (v : string) (s : Instance) : Instance :=
  mkInstance (props s) (summary s) (isSummarizing s) (keydown_listeners s)
             v (in_flight s) (calls s).

Definition set_in_flight (pending : list string) (s : Instance) : Instance :=
  mkInstance (props s) (summary s) (isSummarizing s) (keydown_listeners s)
             (body_overflow s) pending (calls s).

Definition call (c : Call) (s : Instance) : Instance :=
  mkInstance (props s) (summary s) (isSummarizing s) (keydown_listeners s)
             (body_overflow s) (in_flight s) (calls s ++ [c])%list.

(** ** The document *)

(** [document.addEventListener]: a listener already present is not added
    again. *)
Definition addEventListener (l : Listener) (s : Instance) : Instance :=
  if existsb (Listener_eqb l) (keydown_listeners s) then s
  else set_listeners (keydown_listeners s ++ [l])%list s.

Definition removeEventListener (l : Listener) (s : Instance) : Instance :=
  set_listeners
    (filter (fun l' => negb (Listener_eqb l l')) (keydown_listeners s)) s.

(** ** The handlers *)

(** Lines 30-37. *)
Definition handleKeyDown (onClose_ : Callback) (key : string) (s : Instance)
  : Instance :=
  if key =? "Escape" then call (CallOnClose onClose_) s else s.

Definition run_listener (key : string) (s : Instance) (l : Listener)
  : Instance :=
  match l with
  | HandleKeyDown f => handleKeyDown f key s
  end.

(** Lines 51-62, up to the first [await]: the request leaves and the function
    is suspended. *)
Definition handleSummarize (s : Instance) : Instance :=
  match memo (props s) with
  | None => s
  | Some m =>
      if content m =? "" then s
      else
        let s1 := setIsSummarizing true s in
        let s2 :=
          call (Fetch "/api/summarize" "POST"
                  (JObject [("content", JString (content m))])) s1 in
        set_in_flight (in_flight s2 ++ [content m])%list s2
  end.

(** The payload of a response, with the fields the component reads: the
    endpoint answers [{summary}] or [{error}]. *)
Record ResponseData : Type := mkData {
  data_summary : string;
  data_error : option string
}.

(** How a request settles: [fetch] and [response.json()] both resolve, or one
    of them rejects. *)
Inductive FetchOutcome : Type :=
| Responded (ok : bool) (data : ResponseData)
| Rejected.

(** [data.error || 'Unknown error'] *)
Definition error_or_unknown (data : ResponseData) : string :=
  match data_error data with
  | Some e => if e =? "" then "Unknown error" else e
  | None => "Unknown error"
  end.

(** Lines 64-75: the rest of [handleSummarize], run when the request
    settles. *)
Definition resume_handleSummarize (o : FetchOutcome) (s : Instance)
  : Instance :=
  let s1 :=
    match o with
    | Responded true data => setSummary (data_summary data) s
    | Responded false data =>
        call (WindowAlert
                ("요약 생성에 실패했습니다: " ++ error_or_unknown data)) s
    | Rejected =>
        call (WindowAlert "요약 요청 중 오류가 발생했습니다.")
             (call (ConsoleError "Failed to summarize:") s)
    end in
  setIsSummarizing false s1.

(** The elements of the rendered tree that a click can hit. *)
Inductive Element : Type :=
| Backdrop
| ModalContent
| CloseButton
| SummarizeButton
| EditButton
| DeleteButton.

Definition Element_eqb (a b : Element) : bool :=
  match a, b with
  | Backdrop, Backdrop => true
  | ModalContent, ModalContent => true
  | CloseButton, CloseButton => true
  | SummarizeButton, SummarizeButton => true
  | EditButton, EditButton => true
  | DeleteButton, DeleteButton => true
  | _, _ => false
  end.

Record MouseEvent : Type := mkMouseEvent {
  target : Element;
  currentTarget : Element
}.

(** Lines 78-82. *)
Definition handleBackdropClick (e : MouseEvent) (s : Instance) : Instance :=
  if Element_eqb (target e) (currentTarget e)
  then call (CallOnClose (onClose (props s))) s
  else s.

Definition confirm_message : string := "정말로 이 메모를 삭제하시겠습니까?".

(** Lines 84-89; [answer] is what the user answers to [window.confirm], which
    is asked only when there is a memo. *)
Definition handleDelete (answer : bool) (s : Instance) : Instance :=
  match memo (props s) with
  | None => s
  | Some m =>
      let s1 := call (WindowConfirm confirm_message) s in
      if answer then
        call (CallOnClose (onClose (props s)))
             (call (CallOnDelete (onDelete (props s)) (id m)) s1)
      else s1
  end.

(** Lines 91-96. *)
Definition handleEdit (s : Instance) : Instance :=
  match memo (props s) with
  | None => s
  | Some m =>
      call (CallOnClose (onClose (props s)))
           (call (CallOnEdit (onEdit (props s)) m) s)
  end.

(** ** The effect of lines 39-49 *)

Definition handleKeyDown_of (p : Props) : Listener :=
  HandleKeyDown (onClose p).

Definition effect_body (p : Props) (s : Instance) : Instance :=
  if isOpen p then
    setSummary ""
      (set_overflow "hidden" (addEventListener (handleKeyDown_of p) s))
  else s.

Definition effect_cleanup (p : Props) (s : Instance) : Instance :=
  set_overflow "unset" (removeEventListener (handleKeyDown_of p) s).

(** The dependencies are [isOpen] and [handleKeyDown]. *)
Definition deps_changed (old new : Props) : bool :=
  negb (Bool.eqb (isOpen old) (isOpen new))
  || negb (Nat.eqb (onClose old) (onClose new)).

(** ** What is rendered (lines 120-277) *)

Record View : Type := mkView {
  generating_label : bool;
  summarize_button : option bool;
  summary_block : option string
}.

(** [None] when the component returns [null].  The button carries its
    [disabled] attribute. *)
Definition render (s : Instance) : option View :=
  match isOpen (props s), memo (props s) with
  | true, Some _ =>
      Some (mkView (isSummarizing s)
                   (if summary s =? "" then Some (isSummarizing s) else None)
                   (if summary s =? "" then None else Some (summary s)))
  | _, _ => None
  end.

(** An element receives clicks when it is in the tree and is not a disabled
    button. *)
Definition receives_clicks (v : View) (e : Element) : bool :=
  match e with
  | SummarizeButton =>
      match summarize_button v with
      | Some disabled => negb disabled
      | None => false
      end
  | _ => true
  end.

(** The [onClick] of the element itself. *)
Definition onClick (e : Element) (answer : bool) (s : Instance) : Instance :=
  match e with
  | Backdrop => s
  | ModalContent => s
  | CloseButton => call (CallOnClose (onClose (props s))) s
  | SummarizeButton => handleSummarize s
  | EditButton => handleEdit s
  | DeleteButton => handleDelete answer s
  end.

(** ** The life of an instance *)

(** The first render and its effect. *)
Definition mount (p : Props) : Instance :=
  effect_body p (mkInstance p "" false [] "" [] []).

(** A later render with the props [p]: the effect runs again when a
    dependency changed, after the cleanup of the previous run. *)
Definition rerender (p : Props) (s : Instance) : Instance :=
  if deps_changed (props s) p
  then effect_body p (effect_cleanup (props s) (set_props p s))
  else set_props p s.

(** A [keydown] of the document runs every listener. *)
Definition keydown (key : string) (s : Instance) : Instance :=
  fold_left (run_listener key) (keydown_listeners s) s.

(** A click runs the handler of the element hit and then, bubbling, the one
    of the backdrop. *)
Definition click (e : Element) (answer : bool) (s : Instance) : Instance :=
  match render s with
  | None => s
  | Some v =>
      if receives_clicks v e
      then handleBackdropClick (mkMouseEvent e Backdrop) (onClick e answer s)
      else s
  end.

Fixpoint remove_nth {A : Type} (i : nat) (l : list A) : list A :=
  match i, l with
  | _, [] => []
  | O, _ :: rest => rest
  | S j, x :: rest => x :: remove_nth j rest
  end.

(** The [i]-th pending request settles. *)
Definition settle (i : nat) (o : FetchOutcome) (s : Instance) : Instance :=
  match nth_error (in_flight s) i with
  | None => s
  | Some _ =>
      resume_handleSummarize o (set_in_flight (remove_nth i (in_flight s)) s)
  end.

(** What happens to an instance.  Every handler runs to its end, and the
    state it sets is rendered, before the next event is taken. *)
Inductive Event : Type :=
| Render (p : Props)
| KeyDown (key : string)
| Click (e : Element) (answer : bool)
| Settle (i : nat) (o : FetchOutcome).

Definition step (s : Instance) (ev : Event) : Instance :=
  match ev with
  | Render p => rerender p s
  | KeyDown key => keydown key s
  | Click e answer => click e answer s
  | Settle i o => settle i o s
  end.

Definition run (p : Props) (evs : list Event) : Instance :=
  fold_left step evs (mount p).

(** The ids [onDelete] was called with, and the number of calls of
    [onClose]. *)
Fixpoint onDelete_calls (cs : list Call) : list string :=
  match cs with
  | [] => []
  | CallOnDelete _ memo_id :: rest => memo_id :: onDelete_calls rest
  | _ :: rest => onDelete_calls rest
  end.

Fixpoint onClose_calls (cs : list Call) : nat :=
  match cs with
  | [] => O
  | CallOnClose _ :: rest => S (onClose_calls rest)
  | _ :: rest => onClose_calls rest
  end.

(** What a run maintains: the listeners on the document are those of the
    last effect, and a request is pending exactly when the flag is set. *)
Definition expected_listeners (p : Props) : list Listener :=
  if isOpen p then [handleKeyDown_of p] else [].

Definition consistent (s : Instance) : Prop :=
  keydown_listeners s = expected_listeners (props s) /\
  length (in_flight s) = if isSummarizing s then 1%nat else 0%nat.

End MemoDetailModal.

(** * Concrete data for the examples *)

Module Examples.
Import Js.

(** The message V8 gives when [null] is destructured. *)
Definition v8_destructure_null_message : string :=
  "Cannot destructure property 'content' of '(intermediate value)' as it is null.".

(** The message V8 gives when an object has no primitive value. *)
Definition v8_to_primitive_message : string :=
  "Cannot convert object to primitive value".

(** A stand-in for the runtime's conversion of numbers, for examples whose
    values hold no number. *)
Definition no_number_to_string (n : spec_float) : string := "".

Definition env_without_key : Summarize.Env := fun _ => None.

Definition env_with_key : Summarize.Env :=
  fun name => if name =? "GEMINI_API_KEY" then Some "k-123" else None.

Definition provider_answering (text : string) : Summarize.Provider :=
  fun _ _ _ => Returned text.

Definition provider_failing (e : thrown) : Summarize.Provider :=
  fun _ _ _ => Threw e.

Definition body_with_content (text : string) : json :=
  JObject [("content", JString text)].

(** A content that is present but has no text: its own [toString] member
    hides the one every object inherits. *)
Definition body_with_opaque_content : json :=
  JObject [("content", JObject [("toString", JString "x")])].

Definition POST_example : Summarize.Env -> Summarize.Provider ->
  Summarize.Request -> outcome Summarize.Response * list Summarize.effect :=
  Summarize.handle no_number_to_string v8_destructure_null_message
    v8_to_primitive_message.

Definition groceries : MemoDetailModal.Memo :=
  MemoDetailModal.mkMemo "m-1" "Groceries" "milk, eggs, bread" "personal"
    ["home"] "2024-01-01T09:00:00Z" "2024-01-01T09:00:00Z".

Definition meeting : MemoDetailModal.Memo :=
  MemoDetailModal.mkMemo "m-2" "Meeting" "agenda: budget" "work"
    [] "2024-02-01T09:00:00Z" "2024-02-02T10:00:00Z".

Definition blank : MemoDetailModal.Memo :=
  MemoDetailModal.mkMemo "m-3" "Blank" "" "other"
    [] "2024-03-01T09:00:00Z" "2024-03-01T09:00:00Z".

(** The parent's props: the modal closed, and the modal open on a memo. *)
Definition closed_on (m : MemoDetailModal.Memo) : MemoDetailModal.Props :=
  MemoDetailModal.mkProps (Some m) false 1 2 3.

Definition open_on (m : MemoDetailModal.Memo) : MemoDetailModal.Props :=
  MemoDetailModal.mkProps (Some m) true 1 2 3.

Definition summarized : MemoDetailModal.FetchOutcome :=
  MemoDetailModal.Responded true
    (MemoDetailModal.mkData "milk, eggs and bread" None).

(** The modal was opened on the groceries, summarized them, and was
    closed. *)
Definition closed_after_summary : MemoDetailModal.Instance :=
  MemoDetailModal.run (open_on groceries)
    [MemoDetailModal.Click MemoDetailModal.SummarizeButton false;
     MemoDetailModal.Settle 0 summarized;
     MemoDetailModal.Render (closed_on groceries)].

End Examples.

(** * The database client (src/src/lib/supabase.ts) *)

Module Supabase.
Import Js.

Section Client.

(** [createClient(url, key)] and the type of what it builds belong to the
    SDK, which is not part of the repository: it returns a client or
    throws. *)
Variable SupabaseClient : Type.
Variable createClient : string -> string -> outcome SupabaseClient.

(** Lines 3-4. *)
Definition supabaseUrl (env : Summarize.Env) : option string :=
  env "NEXT_PUBLIC_SUPABASE_URL".

Definition supabaseAnonKey (env : Summarize.Env) : option string :=
  env "NEXT_PUBLIC_SUPABASE_ANON_KEY".

Definition missing_configuration_message : string :=
  "Supabase URL 또는 Anon Key가 설정되지 않았습니다. .env.local 파일에 NEXT_PUBLIC_SUPABASE_URL과 NEXT_PUBLIC_SUPABASE_ANON_KEY를 설정해주세요.".

(** Lines 6-13. *)
Definition createSupabaseClient (env : Summarize.Env)
  : outcome SupabaseClient :=
  if Summarize.unset_or_empty (supabaseUrl env)
     || Summarize.unset_or_empty (supabaseAnonKey env)
  then Threw (ErrorObject missing_configuration_message)
  else createClient (Summarize.string_of (supabaseUrl env))
                    (Summarize.string_of (supabaseAnonKey env)).

(** Line 15: the module builds its client when it is loaded, so that loading
    it throws when building does. *)
Definition supabase (env : Summarize.Env) : outcome SupabaseClient :=
  createSupabaseClient env.

End Client.

End Supabase.

(** * The badge of a category (MemoDetailModal.tsx, lines 109-118) *)

Module CategoryBadge.

(** The object literal [colors], a member per line. *)
Definition colors : list (string * string) :=
  [("personal", "bg-blue-100 text-blue-800");
   ("work", "bg-green-100 text-green-800");
   ("study", "bg-purple-100 text-purple-800");
   ("idea", "bg-yellow-100 text-yellow-800");
   ("other", "bg-gray-100 text-gray-800")].

(** What [colors[category]] evaluates to, when it is not [undefined]: the
    string of a member of the literal, or a member that the literal inherits
    from [Object.prototype] (a function, or the prototype itself). *)
Inductive member : Type :=
| OwnString (classes : string)
| Inherited (name : string).

Fixpoint own (key : string) (members : list (string * string))
  : option string :=
  match members with
  | [] => None
  | (k, v) :: rest => if k =? key then Some v else own key rest
  end.

Section Lookup.

(** The names of the properties of [Object.prototype] are the runtime's. *)
Variable object_prototype_has : string -> bool.

(** [colors[category]]: the members of the literal hide the inherited
    ones. *)
Definition colors_get (category : string) : option member :=
  match own category colors with
  | Some classes => Some (OwnString classes)
  | None =>
      if object_prototype_has category then Some (Inherited category)
      else None
  end.

(** [!!v] for what the lookup gives. *)
Definition truthy (v : option member) : bool :=
  match v with
  | None => false
  | Some (OwnString classes) => negb (classes =? "")
  | Some (Inherited _) => true
  end.

(** [colors.other] *)
Definition colors_other : member :=
  match own "other" colors with
  | Some classes => OwnString classes
  | None => Inherited "other"
  end.

(** [colors[category as keyof typeof colors] || colors.other] *)
Definition getCategoryColor (category : string) : member :=
  match colors_get category with
  | Some v => if truthy (Some v) then v else colors_other
  | None => colors_other
  end.

End Lookup.

End CategoryBadge.

(** * The modal and the route, end to end *)

Module Wire.
Import Js.

(** [response.ok]: the status is in the range 200-299. *)
Definition response_ok (r : Summarize.Response) : bool :=
  ((200 <=? Summarize.status r) && (Summarize.status r <=? 299))%Z.

(** What the modal reads of a response of the route: [response.ok] and the
    fields of the parsed body.  An [{error}] body has no [summary]; the
    modal reads [data.summary] only when [response.ok] holds (line 66), so
    the field is left empty for a response that is not ok, and a response
    that is ok and carries an [{error}] body, whose [data.summary] is
    [undefined], has no outcome here. *)
Definition fetch_outcome_of (r : Summarize.Response)
  : option MemoDetailModal.FetchOutcome :=
  match Summarize.body r with
  | Summarize.SummaryBody text =>
      Some (MemoDetailModal.Responded (response_ok r)
              (MemoDetailModal.mkData text None))
  | Summarize.ErrorBody error =>
      if response_ok r then None
      else Some (MemoDetailModal.Responded false
                   (MemoDetailModal.mkData "" (Some error)))
  end.

(** The calls of the provider and the errors written to the console, in a
    log of the route. *)
Fixpoint provider_calls (log : list Summarize.effect)
  : list (string * string * string) :=
  match log with
  | [] => []
  | Summarize.GenerateContent apiKey model prompt :: rest =>
      (apiKey, model, prompt) :: provider_calls rest
  | _ :: rest => provider_calls rest
  end.

Fixpoint console_errors (log : list Summarize.effect) : list thrown :=
  match log with
  | [] => []
  | Summarize.ConsoleError _ error :: rest => error :: console_errors rest
  | _ :: rest => console_errors rest
  end.

(** The requests the modal may send: to the route, by POST, with an object
    whose content is a non-empty string. *)
Definition sent_to_route (c : MemoDetailModal.Call) : Prop :=
  match c with
  | MemoDetailModal.Fetch url method payload =>
      url = "/api/summarize" /\ method = "POST" /\
      exists text, payload = JObject [("content", JString text)] /\ text <> ""
  | _ => True
  end.

(** The messages the modal shows in its alerts. *)
Definition failure_alert (error : string) : MemoDetailModal.Call :=
  MemoDetailModal.WindowAlert ("요약 생성에 실패했습니다: " ++ error).

Definition request_alert : MemoDetailModal.Call :=
  MemoDetailModal.WindowAlert "요약 요청 중 오류가 발생했습니다.".

End Wire.

(** * More data for the examples *)

Module MoreExamples.
Import Js.

(** The names of the properties of [Object.prototype], with those of
    Annex B. *)
Definition object_prototype_names : list string :=
  ["constructor"; "hasOwnProperty"; "isPrototypeOf"; "propertyIsEnumerable";
   "toLocaleString"; "toString"; "valueOf"; "__proto__";
   "__defineGetter__"; "__defineSetter__"; "__lookupGetter__";
   "__lookupSetter__"].

Definition object_prototype_has (name : string) : bool :=
  existsb (String.eqb name) object_prototype_names.

Definition env_with_supabase : Summarize.Env :=
  fun name =>
    if name =? "NEXT_PUBLIC_SUPABASE_URL" then Some "https://db.example"
    else if name =? "NEXT_PUBLIC_SUPABASE_ANON_KEY" then Some "anon-1"
    else None.

Definition env_with_url_only : Summarize.Env :=
  fun name =>
    if name =? "NEXT_PUBLIC_SUPABASE_URL" then Some "https://db.example"
    else None.

(** The modal open on the groceries, with a request pending. *)
Definition summarizing : MemoDetailModal.Instance :=
  MemoDetailModal.run (Examples.open_on Examples.groceries)
    [MemoDetailModal.Click MemoDetailModal.SummarizeButton false].

End MoreExamples.

(** * The modal between two commits *)

Module Page.
Import Js MemoDetailModal.

(** An instance together with the tree React last committed to the document:
    what the user can click, with the [disabled] attribute of the button as
    it was rendered then.  A handler sets the state at once, the tree follows
    at the next commit.  The handlers of the tree close over the props of
    the render that was committed, which are those of the instance, since
    props change with a render only; they read neither [summary] nor
    [isSummarizing], and every setter is given a value and no function of
    the earlier state, so that setting the state at once or at the commit
    gives the same state. *)
Record Page : Type := mkPage {
  instance : Instance;
  committed : option View
}.

Definition commit (s : Instance) : Page := mkPage s (render s).

(** A click is dispatched to the committed tree: the element takes it when
    it is in that tree and was not rendered disabled. *)
Definition dispatch_click (e : Element) (answer : bool) (pg : Page) : Page :=
  match committed pg with
  | None => pg
  | Some v =>
      if receives_clicks v e
      then mkPage
             (handleBackdropClick (mkMouseEvent e Backdrop)
                (onClick e answer (instance pg)))
             (committed pg)
      else pg
  end.

(** What happens to a page: an event of the instance is dispatched, or React
    commits the state.  A render by the parent is committed with its
    effect. *)
Inductive PageEvent : Type :=
| Dispatch (ev : Event)
| Commit.

Definition page_step (pg : Page) (pev : PageEvent) : Page :=
  match pev with
  | Dispatch (Render p) => commit (rerender p (instance pg))
  | Dispatch (KeyDown key) => mkPage (keydown key (instance pg)) (committed pg)
  | Dispatch (Click e answer) => dispatch_click e answer pg
  | Dispatch (Settle i o) => mkPage (settle i o (instance pg)) (committed pg)
  | Commit => commit (instance pg)
  end.

Definition page_run (p : Props) (pevs : list PageEvent) : Page :=
  fold_left page_step pevs (commit (mount p)).

(** Every event followed by a commit. *)
Definition committed_each (evs : list Event) : list PageEvent :=
  flat_map (fun ev => [Dispatch ev; Commit]) evs.

(** The schedules in which the component is rendered between two clicks on
    the summarize button: after such a click ([clicked] set) no other one
    comes before a commit or a render. *)
Fixpoint rendered_between_clicks_from (clicked : bool)
    (pevs : list PageEvent) : bool :=
  match pevs with
  | [] => true
  | Commit :: rest => rendered_between_clicks_from false rest
  | Dispatch (Render _) :: rest => rendered_between_clicks_from false rest
  | Dispatch (Click SummarizeButton _) :: rest =>
      negb clicked && rendered_between_clicks_from true rest
  | Dispatch _ :: rest => rendered_between_clicks_from clicked rest
  end.

Definition rendered_between_clicks (pevs : list PageEvent) : bool :=
  rendered_between_clicks_from false pevs.

(** The button of the committed tree takes clicks. *)
Definition button_enabled (pg : Page) : bool :=
  match committed pg with
  | Some v => receives_clicks v SummarizeButton
  | None => false
  end.

(** What a schedule with a render between the clicks maintains: a request is
    pending exactly when the flag is set, and, unless the button has been
    clicked since the last commit, a button that takes clicks goes with a
    flag that is not set. *)
Definition page_ok (clicked : bool) (pg : Page) : Prop :=
  length (in_flight (instance pg))
  = (if isSummarizing (instance pg) then 1%nat else 0%nat) /\
  (clicked = false -> button_enabled pg = true ->
   isSummarizing (instance pg) = false).

(** Two clicks on the button with no commit between them. *)
Definition double_click : list PageEvent :=
  [Dispatch (Click SummarizeButton false);
   Dispatch (Click SummarizeButton false)].

(** The same two clicks with the commit React makes after the first. *)
Definition click_commit_click : list PageEvent :=
  [Dispatch (Click SummarizeButton false); Commit;
   Dispatch (Click SummarizeButton false)].

End Page.

(** * Properties of the route handler *)

Section SummarizeProperties.
Import Js Summarize.

Variable number_to_string : spec_float -> string.
Variable destructure_null_message : string.
Variable to_primitive_message : string.

#[local] Abbreviation handle :=
  (Summarize.handle number_to_string destructure_null_message
     to_primitive_message).
#[local] Abbreviation prompt_of :=
  (Summarize.prompt_of number_to_string to_primitive_message).

Ltac run_handler :=
  unfold Summarize.handle, POST, try_catch, bind, request_json,
    destructure_content, generateContent, console_error, emit, lift, ret,
    throw, NextResponse_json in *;
  simpl in *.

(** A body whose content passes the test of line 8 is not [null]. *)
Lemma content_truthy_not_null (parsed : json) :
  ToBoolean (get_property "content" parsed) = true -> parsed <> JNull.
Proof. intros H ->. discriminate H. Qed.

(** The handler on a parsed body other than [null], branch by branch. *)
Lemma handle_unfold_non_null env provider parsed :
  parsed <> JNull ->
  handle env provider (RequestWithJson parsed) =
  let content := get_property "content" parsed in
  if negb (ToBoolean content) then
    (Returned (mkResponse 400 (ErrorBody "Content is required")), [])
  else if unset_or_empty (env "GEMINI_API_KEY") then
    (Returned (mkResponse 500 (ErrorBody "GEMINI_API_KEY is not configured")),
     [])
  else
    let apiKey := string_of (env "GEMINI_API_KEY") in
    match prompt_of content with
    | Threw e =>
        (Returned (mkResponse 500 (ErrorBody (message_of e))),
         [ConsoleError "Error generating summary:" e])
    | Returned prompt =>
        match provider apiKey model_name prompt with
        | Returned text =>
            (Returned (mkResponse 200 (SummaryBody text)),
             [GenerateContent apiKey model_name prompt])
        | Threw e =>
            (Returned (mkResponse 500 (ErrorBody (message_of e))),
             [GenerateContent apiKey model_name prompt;
              ConsoleError "Error generating summary:" e])
        end
    end.
Proof.
  intros Hnn. run_handler.
  destruct parsed; try congruence; simpl; try reflexivity.
  destruct (ToBoolean (lookup "content" members)); simpl; [|reflexivity].
  destruct (unset_or_empty (env "GEMINI_API_KEY")); simpl; [reflexivity|].
  destruct (Summarize.prompt_of _ _ _) as [prompt|e]; [|reflexivity].
  destruct (provider _ _ _); reflexivity.
Qed.

Lemma handle_null env provider :
  handle env provider (RequestWithJson JNull) =
  (Returned (mkResponse 500 (ErrorBody destructure_null_message)),
   [ConsoleError "Error generating summary:"
      (ErrorObject destructure_null_message)]).
Proof. reflexivity. Qed.

Lemma handle_malformed env provider message :
  handle env provider (RequestMalformed message) =
  (Returned (mkResponse 500 (ErrorBody message)),
   [ConsoleError "Error generating summary:" (ErrorObject message)]).
Proof. reflexivity. Qed.

(** A content that is a string always has a prompt: the instruction followed
    by the string. *)
Lemma prompt_of_string (s : string) :
  prompt_of (Some (JString s)) = Returned (instruction ++ s).
Proof. reflexivity. Qed.

Lemma prompt_of_inv (content : value) (prompt : string) :
  prompt_of content = Returned prompt ->
  exists converted,
    ToString number_to_string to_primitive_message content = Returned converted
    /\ prompt = instruction ++ converted.
Proof.
  unfold Summarize.prompt_of.
  destruct (ToString _ _ content) as [converted|e]; intros H; inversion H.
  exists converted. split; reflexivity.
Qed.

(** Induction on parsed values, with the elements of an array at hand. *)
Lemma json_nested_ind (P : json -> Prop) :
  P JNull ->
  (forall b, P (JBool b)) ->
  (forall n, P (JNumber n)) ->
  (forall s, P (JString s)) ->
  (forall elements, Forall P elements -> P (JArray elements)) ->
  (forall members, P (JObject members)) ->
  forall v, P v.
Proof.
  intros HNull HBool HNumber HString HArray HObject.
  fix IH 1. intros [ | b | n | s | elements | members].
  - exact HNull.
  - apply HBool.
  - apply HNumber.
  - apply HString.
  - apply HArray. induction elements as [|e rest IHrest]; constructor.
    + apply IH.
    + exact IHrest.
  - apply HObject.
Qed.

(** The conversion throws exactly on the values without text, and then the
    [TypeError] of the engine. *)
Lemma JsonToString_has_text (v : json) :
  if has_text v
  then exists text,
      JsonToString number_to_string to_primitive_message v = Returned text
  else JsonToString number_to_string to_primitive_message v
       = Threw (ErrorObject to_primitive_message).
Proof.
  induction v as [ | b | n | s | elements IH | members] using json_nested_ind;
    simpl; try (eexists; reflexivity).
  - destruct b; eexists; reflexivity.
  - induction IH as [|e rest He _ IHrest]; simpl.
    + eexists; reflexivity.
    + assert (Hconv :
        if has_text e
        then exists text,
            match e with
            | JNull => Returned ""
            | _ => JsonToString number_to_string to_primitive_message e
            end = Returned text
        else match e with
             | JNull => Returned ""
             | _ => JsonToString number_to_string to_primitive_message e
             end = Threw (ErrorObject to_primitive_message)).
      { destruct e; try exact He. simpl. eexists; reflexivity. }
      destruct (has_text e); simpl.
      * destruct Hconv as [text ->].
        destruct (forallb has_text rest).
        -- destruct IHrest as [joined Hjoined].
           destruct (join_with _ rest); [|discriminate Hjoined].
           eexists; reflexivity.
        -- destruct (join_with _ rest); [discriminate IHrest|].
           inversion IHrest. reflexivity.
      * rewrite Hconv. reflexivity.
  - destruct (lookup "toString" members); [reflexivity | eexists; reflexivity].
Qed.

(** A present content has no prompt exactly when it has no text. *)
Lemma prompt_of_throws_iff (content : json) :
  (exists e, prompt_of (Some content) = Threw e) <-> has_text content = false.
Proof.
  unfold Summarize.prompt_of. simpl.
  pose proof (JsonToString_has_text content) as Hspec.
  destruct (has_text content).
  - destruct Hspec as [text ->]. split; [intros [e He] | intros He];
      discriminate He.
  - rewrite Hspec. split; [reflexivity | eexists; reflexivity].
Qed.

(** X4: a request whose body parses to a value other than [null] and holds
    no content, or a falsy one, is answered with status 400 and the error
    string [Content is required], whatever the environment and the provider
    are: the credential is not consulted, nothing is sent and nothing is
    logged. *)
Theorem POST_without_content_400 env provider parsed :
  parsed <> JNull ->
  ToBoolean (get_property "content" parsed) = false ->
  handle env provider (RequestWithJson parsed) =
  (Returned (mkResponse 400 (ErrorBody "Content is required")), []).
Proof.
  intros Hnn Hfalsy.
  rewrite handle_unfold_non_null by assumption.
  cbv zeta. rewrite Hfalsy. reflexivity.
Qed.

(** C2, as amended: with content present the answer has status 500 exactly
    when the credential is unset or empty, or the content has no text to put
    in the prompt, or the call of the provider throws; its body is then an
    error string.  When the provider threw an [Error] the string is its
    message; when it threw anything else, the fixed text of line 38. *)
Theorem POST_with_content_500_iff env provider parsed content :
  get_property "content" parsed = Some content ->
  ToBoolean (Some content) = true ->
  exists r log,
    handle env provider (RequestWithJson parsed) = (Returned r, log) /\
    (status r = 500%Z <->
     unset_or_empty (env "GEMINI_API_KEY") = true \/
     has_text content = false \/
     (exists prompt e,
        prompt_of (Some content) = Returned prompt /\
        provider (string_of (env "GEMINI_API_KEY")) model_name prompt
        = Threw e)) /\
    (status r = 500%Z -> exists message, body r = ErrorBody message) /\
    (forall prompt,
       unset_or_empty (env "GEMINI_API_KEY") = false ->
       prompt_of (Some content) = Returned prompt ->
       (forall message,
          provider (string_of (env "GEMINI_API_KEY")) model_name prompt
          = Threw (ErrorObject message) ->
          body r = ErrorBody message) /\
       (provider (string_of (env "GEMINI_API_KEY")) model_name prompt
        = Threw NonError ->
        body r = ErrorBody "Failed to generate summary")).
Proof.
  intros Hcontent Htruthy.
  rewrite handle_unfold_non_null
    by (apply content_truthy_not_null; rewrite Hcontent; assumption).
  cbv zeta. rewrite Hcontent, Htruthy. simpl negb. cbv iota.
  pose proof (prompt_of_throws_iff content) as Htext.
  destruct (unset_or_empty (env "GEMINI_API_KEY")) eqn:Hkey.
  - eexists; eexists; split; [reflexivity|]. simpl.
    split; [split; auto|]. split; [eexists; reflexivity|].
    intros prompt Habs. discriminate Habs.
  - destruct (prompt_of (Some content)) as [prompt|e] eqn:Hprompt.
    + assert (Hhas : has_text content <> false).
      { intros Hno. apply Htext in Hno. destruct Hno as [e He].
        discriminate He. }
      destruct (provider _ _ prompt) as [text|e] eqn:Hcall.
      * eexists; eexists; split; [reflexivity|]. simpl.
        split; [split|].
        -- discriminate.
        -- intros [Habs | [Habs | [prompt' [e [Hp Habs]]]]];
             [discriminate Habs | contradiction |].
           inversion Hp; subst prompt'. rewrite Hcall in Habs.
           discriminate Habs.
        -- split; [discriminate|].
           intros prompt' _ Hp. inversion Hp; subst prompt'.
           rewrite Hcall. split; [intros message Habs | intros Habs];
             discriminate Habs.
      * eexists; eexists; split; [reflexivity|]. simpl.
        split; [split|].
        -- intros _. right. right. exists prompt, e.
           split; [reflexivity | exact Hcall].
        -- reflexivity.
        -- split; [eexists; reflexivity|].
           intros prompt' _ Hp. inversion Hp; subst prompt'.
           rewrite Hcall. split; [intros message Heq | intros Heq];
             inversion Heq; reflexivity.
    + eexists; eexists; split; [reflexivity|]. simpl.
      split; [split|].
      * intros _. right. left. apply Htext. exists e. reflexivity.
      * reflexivity.
      * split; [eexists; reflexivity|].
        intros prompt _ Habs. discriminate Habs.
Qed.

(** C3: with content present, the credential set and the provider answering
    the prompt, the handler calls the provider once, with the fixed
    instruction followed by the content (the text itself when the content is
    a string), and answers with status 200 and the provider's text, unchanged,
    as the summary. *)
Theorem POST_success_verbatim env provider parsed prompt text :
  ToBoolean (get_property "content" parsed) = true ->
  unset_or_empty (env "GEMINI_API_KEY") = false ->
  prompt_of (get_property "content" parsed) = Returned prompt ->
  provider (string_of (env "GEMINI_API_KEY")) model_name prompt
  = Returned text ->
  handle env provider (RequestWithJson parsed) =
  (Returned (mkResponse 200 (SummaryBody text)),
   [GenerateContent (string_of (env "GEMINI_API_KEY")) model_name prompt]) /\
  (exists converted,
     ToString number_to_string to_primitive_message
       (get_property "content" parsed) = Returned converted /\
     prompt = instruction ++ converted) /\
  (forall s, get_property "content" parsed = Some (JString s) ->
     prompt = instruction ++ s).
Proof.
  intros Htruthy Hkey Hprompt Hcall. split; [|split].
  - rewrite handle_unfold_non_null
      by (apply content_truthy_not_null; assumption).
    cbv zeta. rewrite Htruthy, Hkey, Hprompt, Hcall. reflexivity.
  - apply prompt_of_inv. exact Hprompt.
  - intros s Hs. rewrite Hs, prompt_of_string in Hprompt.
    inversion Hprompt. reflexivity.
Qed.

(** C4, as amended: with content present, the credential set and the provider
    answering the prompt, the summary of the answer is the provider's text,
    so it is non-empty exactly when the provider's text is. *)
Theorem POST_summary_nonempty_iff env provider parsed prompt text :
  ToBoolean (get_property "content" parsed) = true ->
  unset_or_empty (env "GEMINI_API_KEY") = false ->
  prompt_of (get_property "content" parsed) = Returned prompt ->
  provider (string_of (env "GEMINI_API_KEY")) model_name prompt
  = Returned text ->
  exists summary log,
    handle env provider (RequestWithJson parsed) =
    (Returned (mkResponse 200 (SummaryBody summary)), log) /\
    summary = text /\
    (summary <> "" <-> text <> "").
Proof.
  intros Htruthy Hkey Hprompt Hcall.
  rewrite handle_unfold_non_null
    by (apply content_truthy_not_null; assumption).
  cbv zeta. rewrite Htruthy, Hkey, Hprompt, Hcall. simpl.
  eexists; eexists; split; [reflexivity|]. split; [reflexivity | tauto].
Qed.

(** C9: the handler always returns a response, of status 200, 400 or 500, and
    never throws; a body that is not valid JSON is answered with status 500
    and the message of the parser's error. *)
Theorem POST_total env provider request :
  exists r log,
    handle env provider request = (Returned r, log) /\
    (status r = 200%Z \/ status r = 400%Z \/ status r = 500%Z) /\
    (forall message, request = RequestMalformed message ->
       r = mkResponse 500 (ErrorBody message)).
Proof.
  destruct request as [parsed | message].
  - assert (Hcase : parsed = JNull \/ parsed <> JNull)
      by (destruct parsed; auto; right; discriminate).
    destruct Hcase as [-> | Hnn].
    + rewrite handle_null. eexists; eexists; split; [reflexivity|].
      simpl. split; [auto | discriminate].
    + rewrite handle_unfold_non_null by assumption. cbv zeta.
      destruct (negb _);
        [| destruct (unset_or_empty _);
           [| destruct (prompt_of _); [destruct (provider _ _ _)|]]];
        eexists; eexists; (split; [reflexivity|]); simpl;
        (split; [auto | discriminate]).
  - rewrite handle_malformed. eexists; eexists; split; [reflexivity|].
    simpl. split; [auto | intros m Heq; inversion Heq; reflexivity].
Qed.

End SummarizeProperties.

(** The examples of the route handler. *)

Section SummarizeExamples.
Import Js Summarize Examples.

Lemma POST_without_content_400_witness :
  JObject [("title", JString "memo")] <> JNull /\
  ToBoolean (get_property "content" (JObject [("title", JString "memo")]))
  = false /\
  POST_example env_without_key (provider_failing NonError)
    (RequestWithJson (JObject [("title", JString "memo")])) =
  (Returned (mkResponse 400 (ErrorBody "Content is required")), []).
Proof.
  split; [discriminate|]. split; [reflexivity|].
  apply (POST_without_content_400 no_number_to_string
           v8_destructure_null_message v8_to_primitive_message
           env_without_key (provider_failing NonError)
           (JObject [("title", JString "memo")]));
    [discriminate | reflexivity].
Defined.

(** C1: a request without content is to be answered with status 400, before
    the credential is looked at.  The handler misses the body that parses to
    [null]: it has no content value, yet the destructuring of line 6 throws
    before the test of line 8, and the answer is 500 with the message of the
    engine, here with the credential unset as well. *)
Theorem POST_null_body_answers_500 :
  get_property "content" JNull = None /\
  env_without_key "GEMINI_API_KEY" = None /\
  POST_example env_without_key (provider_answering "ok")
    (RequestWithJson JNull) =
  (Returned (mkResponse 500 (ErrorBody v8_destructure_null_message)),
   [ConsoleError "Error generating summary:"
      (ErrorObject v8_destructure_null_message)]) /\
  ~ (exists b log,
       POST_example env_without_key (provider_answering "ok")
         (RequestWithJson JNull) = (Returned (mkResponse 400 b), log)) /\
  POST_example env_without_key (provider_answering "ok")
    (RequestWithJson (JObject [])) =
  (Returned (mkResponse 400 (ErrorBody "Content is required")), []).
Proof.
  split; [reflexivity|]. split; [reflexivity|]. split; [reflexivity|].
  split; [|reflexivity].
  intros [b [log H]]. discriminate H.
Qed.

Lemma POST_with_content_500_iff_witness :
  get_property "content" (body_with_content "memo") = Some (JString "memo") /\
  ToBoolean (Some (JString "memo")) = true /\
  exists r log,
    POST_example env_with_key (provider_failing (ErrorObject "quota"))
      (RequestWithJson (body_with_content "memo")) = (Returned r, log) /\
    status r = 500%Z /\ body r = ErrorBody "quota".
Proof.
  split; [reflexivity|]. split; [reflexivity|].
  destruct (POST_with_content_500_iff no_number_to_string
              v8_destructure_null_message v8_to_primitive_message
              env_with_key (provider_failing (ErrorObject "quota"))
              (body_with_content "memo") (JString "memo") eq_refl eq_refl)
    as [r [log [Hrun [Hiff [_ Hmsg]]]]].
  exists r, log. split; [exact Hrun|]. split.
  - apply Hiff. right. right.
    exists (instruction ++ "memo"), (ErrorObject "quota").
    split; reflexivity.
  - apply (Hmsg (instruction ++ "memo") eq_refl eq_refl). reflexivity.
Defined.

(** C2, as stated, fails for a content that is present but has no text: the
    credential is set and the provider would answer any call, yet the
    template literal throws, the provider is never called and the answer is
    500. *)
Lemma POST_opaque_content_counterexample :
  ToBoolean (get_property "content" body_with_opaque_content) = true /\
  unset_or_empty (env_with_key "GEMINI_API_KEY") = false /\
  (forall apiKey model prompt,
     provider_answering "ok" apiKey model prompt = Returned "ok") /\
  POST_example env_with_key (provider_answering "ok")
    (RequestWithJson body_with_opaque_content) =
  (Returned (mkResponse 500 (ErrorBody v8_to_primitive_message)),
   [ConsoleError "Error generating summary:"
      (ErrorObject v8_to_primitive_message)]).
Proof. repeat split. Qed.

Lemma POST_success_verbatim_witness :
  POST_example env_with_key (provider_answering "short")
    (RequestWithJson (body_with_content "memo")) =
  (Returned (mkResponse 200 (SummaryBody "short")),
   [GenerateContent "k-123" "gemini-2.5-flash" (instruction ++ "memo")]).
Proof.
  apply (POST_success_verbatim no_number_to_string
           v8_destructure_null_message v8_to_primitive_message env_with_key
           (provider_answering "short") (body_with_content "memo")
           (instruction ++ "memo") "short"
           eq_refl eq_refl eq_refl eq_refl).
Defined.

(** C4, as stated, fails when the provider answers with the empty text: the
    call succeeds and the summary returned is empty. *)
Lemma POST_empty_summary_counterexample :
  ToBoolean (get_property "content" (body_with_content "memo")) = true /\
  provider_answering "" "k-123" model_name (instruction ++ "memo")
  = Returned "" /\
  POST_example env_with_key (provider_answering "")
    (RequestWithJson (body_with_content "memo")) =
  (Returned (mkResponse 200 (SummaryBody "")),
   [GenerateContent "k-123" "gemini-2.5-flash" (instruction ++ "memo")]).
Proof. repeat split. Qed.

Lemma POST_summary_nonempty_iff_witness :
  exists summary log,
    POST_example env_with_key (provider_answering "short")
      (RequestWithJson (body_with_content "memo")) =
    (Returned (mkResponse 200 (SummaryBody summary)), log) /\
    summary = "short" /\
    (summary <> "" <-> "short" <> "").
Proof.
  apply (POST_summary_nonempty_iff no_number_to_string
           v8_destructure_null_message v8_to_primitive_message env_with_key
           (provider_answering "short") (body_with_content "memo")
           (instruction ++ "memo") "short"
           eq_refl eq_refl eq_refl eq_refl).
Defined.

End SummarizeExamples.

(** * Properties of the memo detail modal *)

Section ModalProperties.
Import Js MemoDetailModal.

Lemma Element_eqb_eq (a b : Element) : Element_eqb a b = true <-> a = b.
Proof. destruct a, b; simpl; split; intros H; congruence. Qed.

Lemma onDelete_calls_app (xs ys : list Call) :
  onDelete_calls (xs ++ ys) = (onDelete_calls xs ++ onDelete_calls ys)%list.
Proof.
  induction xs as [|c xs IH]; simpl; [reflexivity|].
  destruct c; simpl; rewrite IH; reflexivity.
Qed.

Lemma onClose_calls_app (xs ys : list Call) :
  onClose_calls (xs ++ ys) = (onClose_calls xs + onClose_calls ys)%nat.
Proof.
  induction xs as [|c xs IH]; simpl; [reflexivity|].
  destruct c; simpl; rewrite IH; reflexivity.
Qed.

(** ** The invariant of a run *)

Lemma mount_consistent (p : Props) : consistent (mount p).
Proof.
  destruct p as [m o c e d]. unfold consistent, mount, effect_body.
  destruct o; simpl; split; reflexivity.
Qed.

Lemma rerender_consistent (p : Props) (s : Instance) :
  consistent s -> consistent (rerender p s).
Proof.
  destruct s as [[m o c e d] su busy ls ov fl cs].
  destruct p as [m' o' c' e' d'].
  unfold consistent, rerender, deps_changed, effect_body, effect_cleanup,
    expected_listeners, handleKeyDown_of, addEventListener,
    removeEventListener. simpl.
  intros [Hls Hfl]. subst ls.
  destruct (Nat.eqb_spec c c') as [<- | Hne];
    destruct o, o'; simpl; rewrite ?Nat.eqb_refl; simpl; split; auto.
Qed.

(** The listeners only add calls. *)
Lemma keydown_frame (key : string) (ls : list Listener) (s : Instance) :
  exists cs,
    fold_left (run_listener key) ls s =
    mkInstance (props s) (summary s) (isSummarizing s) (keydown_listeners s)
      (body_overflow s) (in_flight s) (calls s ++ cs)%list.
Proof.
  revert s. induction ls as [|l ls IH]; intros s; simpl.
  - exists []. rewrite app_nil_r. destruct s; reflexivity.
  - destruct (IH (run_listener key s l)) as [cs Hcs]. rewrite Hcs.
    destruct l as [f]. unfold run_listener, handleKeyDown.
    destruct (key =? "Escape"); simpl.
    + exists (CallOnClose f :: cs). rewrite <- app_assoc. reflexivity.
    + exists cs. reflexivity.
Qed.

Lemma keydown_consistent (key : string) (s : Instance) :
  consistent s -> consistent (keydown key s).
Proof.
  unfold keydown. destruct (keydown_frame key (keydown_listeners s) s)
    as [cs ->].
  unfold consistent. simpl. auto.
Qed.

Lemma click_consistent (e : Element) (answer : bool) (s : Instance) :
  consistent s -> consistent (click e answer s).
Proof.
  destruct s as [[m o c ed d] su busy ls ov fl cs].
  unfold consistent, click, render, receives_clicks. simpl.
  intros [Hls Hfl].
  destruct o; [|simpl; auto].
  destruct m as [memo_|]; [|simpl; auto].
  destruct e; simpl;
    unfold handleSummarize, handleEdit, handleDelete; simpl; auto.
  - destruct (su =? ""); simpl; auto.
    destruct busy; simpl; auto.
    destruct (content memo_ =? ""); simpl; auto.
    destruct fl; [|discriminate Hfl]. simpl. auto.
  - destruct answer; simpl; auto.
Qed.

Lemma settle_consistent (i : nat) (o : FetchOutcome) (s : Instance) :
  consistent s -> consistent (settle i o s).
Proof.
  destruct s as [pr su busy ls ov fl cs].
  unfold consistent, settle. simpl. intros [Hls Hfl].
  destruct (nth_error fl i) eqn:Hnth; simpl; [|auto].
  destruct busy.
  - destruct fl as [|x [|y fl]]; try discriminate Hfl.
    destruct i as [|j]; [|destruct j; discriminate Hnth].
    destruct o as [[|] data|]; simpl; auto.
  - destruct fl; [|discriminate Hfl]. destruct i; discriminate Hnth.
Qed.

Lemma step_consistent (s : Instance) (ev : Event) :
  consistent s -> consistent (step s ev).
Proof.
  destruct ev; simpl.
  - apply rerender_consistent.
  - apply keydown_consistent.
  - apply click_consistent.
  - apply settle_consistent.
Qed.

Lemma fold_step_consistent (evs : list Event) (s : Instance) :
  consistent s -> consistent (fold_left step evs s).
Proof.
  revert s. induction evs as [|ev evs IH]; intros s Hs; simpl; [exact Hs|].
  apply IH, step_consistent, Hs.
Qed.

Lemma run_consistent (p : Props) (evs : list Event) : consistent (run p evs).
Proof. apply fold_step_consistent, mount_consistent. Qed.

(** ** The properties of the handlers and of the effect *)

(** C5: a render that takes the modal from closed to open, on whatever memo,
    leaves the summary empty, and what is rendered then shows no summary;
    the same holds of the first render of an instance that is mounted
    open. *)
Theorem opening_resets_summary (s : Instance) (p : Props) :
  isOpen (props s) = false ->
  isOpen p = true ->
  summary (step s (Render p)) = "" /\
  (forall v, render (step s (Render p)) = Some v -> summary_block v = None) /\
  summary (mount p) = "".
Proof.
  destruct s as [[m o c e d] su busy ls ov fl cs].
  destruct p as [m' o' c' e' d']. simpl.
  intros -> ->.
  unfold rerender, deps_changed, effect_body, mount, addEventListener,
    effect_cleanup, removeEventListener. simpl.
  split; [reflexivity | split; [|reflexivity]].
  intros v. unfold render.
  destruct (existsb _ _); simpl;
    (destruct m'; intros Hv; [|discriminate Hv]); inversion Hv; reflexivity.
Qed.

(** C6: in every state an instance reaches, while the modal is open the
    Escape key calls [onClose], once; when a memo is shown, a click on the
    backdrop itself calls [onClose], once, and a click on the content of the
    modal changes nothing.  The handler of the backdrop does nothing for any
    event whose target is not the element it is attached to, and any other
    key does nothing. *)
Theorem escape_and_backdrop_close (p0 : Props) (evs : list Event) :
  let s := run p0 evs in
  isOpen (props s) = true ->
  step s (KeyDown "Escape") = call (CallOnClose (onClose (props s))) s /\
  (forall key, (key =? "Escape") = false -> step s (KeyDown key) = s) /\
  (forall answer, memo (props s) <> None ->
     step s (Click Backdrop answer) = call (CallOnClose (onClose (props s))) s
     /\ step s (Click ModalContent answer) = s) /\
  (forall e, target e <> currentTarget e -> handleBackdropClick e s = s).
Proof.
  intros s. destruct (run_consistent p0 evs) as [Hls _].
  fold s in Hls. clearbody s.
  destruct s as [[m o c e d] su busy ls ov fl cs]. simpl in *.
  intros ->. unfold expected_listeners, handleKeyDown_of in Hls.
  simpl in Hls. subst ls.
  repeat split.
  - intros key Hkey. unfold keydown, handleKeyDown. simpl.
    unfold handleKeyDown. rewrite Hkey. reflexivity.
  - unfold click, render. simpl. destruct m; [reflexivity|congruence].
  - unfold click, render. simpl. destruct m; reflexivity.
  - intros ev Hne. unfold handleBackdropClick.
    destruct (Element_eqb (target ev) (currentTarget ev)) eqn:Heq;
      [|reflexivity].
    apply Element_eqb_eq in Heq. contradiction.
Qed.

(** C7: on an open modal that shows a memo, a click on the delete button
    answered with a confirmation calls [onDelete] once, with the id of the
    memo, and then [onClose]; answered with a refusal it calls neither, and
    the modal is rendered as before. *)
Theorem delete_confirmed_or_cancelled (s : Instance) (m : Memo) :
  isOpen (props s) = true ->
  memo (props s) = Some m ->
  let confirmed := step s (Click DeleteButton true) in
  let cancelled := step s (Click DeleteButton false) in
  calls confirmed =
  (calls s ++ [WindowConfirm confirm_message;
               CallOnDelete (onDelete (props s)) (id m);
               CallOnClose (onClose (props s))])%list /\
  onDelete_calls (calls confirmed) = (onDelete_calls (calls s) ++ [id m])%list /\
  cancelled = call (WindowConfirm confirm_message) s /\
  onDelete_calls (calls cancelled) = onDelete_calls (calls s) /\
  onClose_calls (calls cancelled) = onClose_calls (calls s) /\
  render cancelled = render s /\ render s <> None.
Proof.
  destruct s as [[m0 o c e d] su busy ls ov fl cs]. simpl.
  intros -> ->.
  unfold click, render, handleDelete, handleBackdropClick, call. simpl.
  repeat split.
  - rewrite <- !app_assoc. reflexivity.
  - rewrite <- !app_assoc, onDelete_calls_app. reflexivity.
  - rewrite onDelete_calls_app. simpl. apply app_nil_r.
  - rewrite onClose_calls_app. simpl. apply Nat.add_0_r.
  - discriminate.
Qed.

(** C10: called without a memo, or on a memo whose content is empty,
    [handleSummarize] returns the instance as it was: no request is sent and
    neither [summary] nor [isSummarizing] changes. *)
Theorem handleSummarize_noop (s : Instance) :
  memo (props s) = None \/
  (exists m, memo (props s) = Some m /\ content m = "") ->
  handleSummarize s = s.
Proof.
  unfold handleSummarize.
  intros [-> | [m [-> Hempty]]]; [reflexivity|].
  rewrite Hempty. reflexivity.
Qed.

End ModalProperties.

(** The examples of the modal. *)

Section ModalExamples.
Import Js MemoDetailModal Examples.

Lemma opening_resets_summary_witness :
  summary closed_after_summary = "milk, eggs and bread" /\
  isOpen (props closed_after_summary) = false /\
  isOpen (open_on meeting) = true /\
  summary (step closed_after_summary (Render (open_on meeting))) = "".
Proof.
  split; [reflexivity|]. split; [reflexivity|]. split; [reflexivity|].
  apply (opening_resets_summary closed_after_summary (open_on meeting)
           eq_refl eq_refl).
Defined.

Lemma escape_and_backdrop_close_witness :
  isOpen (props (run (open_on groceries) [])) = true /\
  calls (step (run (open_on groceries) []) (KeyDown "Escape"))
  = [CallOnClose 1].
Proof.
  split; [reflexivity|].
  destruct (escape_and_backdrop_close (open_on groceries) [] eq_refl)
    as [Hescape _].
  rewrite Hescape. reflexivity.
Defined.

Lemma delete_confirmed_or_cancelled_witness :
  calls (step (mount (open_on groceries)) (Click DeleteButton true))
  = [WindowConfirm confirm_message; CallOnDelete 3 "m-1"; CallOnClose 1] /\
  calls (step (mount (open_on groceries)) (Click DeleteButton false))
  = [WindowConfirm confirm_message].
Proof.
  destruct (delete_confirmed_or_cancelled (mount (open_on groceries))
              groceries eq_refl eq_refl)
    as [Hconfirmed [_ [Hcancelled _]]].
  split; [exact Hconfirmed | rewrite Hcancelled; reflexivity].
Defined.

(** One click on the button puts one request in flight; a second click,
    once the flag has been rendered and before the request settles, finds
    the button disabled. *)
Example one_click_one_request :
  let s := run (open_on groceries) [Click SummarizeButton false] in
  in_flight s = ["milk, eggs, bread"] /\
  isSummarizing s = true /\
  calls s = [Fetch "/api/summarize" "POST"
               (JObject [("content", JString "milk, eggs, bread")])] /\
  step s (Click SummarizeButton false) = s.
Proof. repeat split. Qed.

Lemma handleSummarize_noop_witness :
  content blank = "" /\
  handleSummarize (mount (open_on blank)) = mount (open_on blank).
Proof.
  split; [reflexivity|].
  apply (handleSummarize_noop (mount (open_on blank))
           (or_intror (ex_intro _ blank (conj eq_refl eq_refl)))).
Defined.

End ModalExamples.

(** * Further properties of the modal *)

Section ModalFurtherProperties.
Import Js MemoDetailModal Examples.

(** X1: [handleSummarize] does not read [isSummarizing]: called on a memo
    with content it sends a request and adds it to those pending, whether
    or not the flag is already set.  Only the disabled button keeps a second
    request from starting. *)
Theorem handleSummarize_ignores_flag (s : Instance) (m : Memo) :
  memo (props s) = Some m ->
  (content m =? "") = false ->
  in_flight (handleSummarize s) = (in_flight s ++ [content m])%list /\
  isSummarizing (handleSummarize s) = true /\
  calls (handleSummarize s) =
  (calls s ++ [Fetch "/api/summarize" "POST"
                 (JObject [("content", JString (content m))])])%list.
Proof.
  unfold handleSummarize. intros -> ->. repeat split.
Qed.

Lemma handleSummarize_ignores_flag_witness :
  isSummarizing (run (open_on groceries) [Click SummarizeButton false])
  = true /\
  in_flight
    (handleSummarize (run (open_on groceries) [Click SummarizeButton false]))
  = ["milk, eggs, bread"; "milk, eggs, bread"].
Proof.
  split; [reflexivity|].
  destruct (handleSummarize_ignores_flag
              (run (open_on groceries) [Click SummarizeButton false])
              groceries eq_refl eq_refl) as [Hpending _].
  rewrite Hpending. reflexivity.
Defined.

(** X2: a render that keeps the modal open and passes the same [onClose]
    does not run the effect again: the summary stays, also when the memo
    changed. *)
Theorem render_while_open_keeps_summary (s : Instance) (p : Props) :
  isOpen (props s) = true ->
  isOpen p = true ->
  onClose p = onClose (props s) ->
  summary (step s (Render p)) = summary s.
Proof.
  destruct s as [[m o c e d] su busy ls ov fl cs].
  destruct p as [m' o' c' e' d']. simpl.
  intros -> -> ->. unfold rerender, deps_changed. simpl.
  rewrite Nat.eqb_refl. reflexivity.
Qed.

Lemma render_while_open_keeps_summary_witness :
  summary
    (step (run (open_on groceries)
             [Click SummarizeButton false; Settle 0 summarized])
       (Render (open_on meeting)))
  = "milk, eggs and bread".
Proof.
  rewrite (render_while_open_keeps_summary
             (run (open_on groceries)
                [Click SummarizeButton false; Settle 0 summarized])
             (open_on meeting) eq_refl eq_refl eq_refl).
  reflexivity.
Defined.

(** X3: a render that keeps the modal open but passes another [onClose]
    renews [handleKeyDown], runs the effect again and so empties the
    summary. *)
Theorem render_with_new_onClose_resets_summary (s : Instance) (p : Props) :
  isOpen p = true ->
  onClose p <> onClose (props s) ->
  summary (step s (Render p)) = "".
Proof.
  destruct s as [[m o c e d] su busy ls ov fl cs].
  destruct p as [m' o' c' e' d']. simpl.
  intros -> Hne. unfold rerender, deps_changed. simpl.
  destruct (Nat.eqb_spec c c') as [Heq | _]; [congruence|].
  rewrite orb_true_r. reflexivity.
Qed.

Lemma render_with_new_onClose_resets_summary_witness :
  summary
    (run (open_on groceries)
       [Click SummarizeButton false; Settle 0 summarized])
  = "milk, eggs and bread" /\
  summary
    (step (run (open_on groceries)
             [Click SummarizeButton false; Settle 0 summarized])
       (Render (mkProps (Some groceries) true 7 2 3)))
  = "".
Proof.
  split; [reflexivity|].
  apply (render_with_new_onClose_resets_summary
           (run (open_on groceries)
              [Click SummarizeButton false; Settle 0 summarized])
           (mkProps (Some groceries) true 7 2 3) eq_refl).
  discriminate.
Defined.

End ModalFurtherProperties.

(** * Further properties of the route handler *)

Section RouteFurtherProperties.
Import Js Summarize Wire.

Variable number_to_string : spec_float -> string.
Variable destructure_null_message : string.
Variable to_primitive_message : string.

#[local] Abbreviation POST :=
  (Summarize.POST number_to_string destructure_null_message
     to_primitive_message).
#[local] Abbreviation handle :=
  (Summarize.handle number_to_string destructure_null_message
     to_primitive_message).
#[local] Abbreviation prompt_of :=
  (Summarize.prompt_of number_to_string to_primitive_message).

(** The three shapes of a request. *)
Lemma request_cases (request : Request) :
  (exists message, request = RequestMalformed message) \/
  request = RequestWithJson JNull \/
  (exists parsed, request = RequestWithJson parsed /\ parsed <> JNull).
Proof.
  destruct request as [parsed | message].
  - destruct parsed; [right; left; reflexivity | ..];
      right; right; eexists; (split; [reflexivity | discriminate]).
  - left. exists message. reflexivity.
Qed.

Ltac by_request_cases request :=
  destruct (request_cases request)
    as [[?message ->] | [-> | [?parsed [-> ?Hnn]]]];
  [ rewrite handle_malformed
  | rewrite handle_null
  | rewrite handle_unfold_non_null by assumption; cbv zeta ].

(** X5: the body of the answer goes with its status: a summary with 200, an
    error string with 400 and 500, and nothing else is answered. *)
Theorem POST_body_matches_status env provider request :
  exists r log,
    handle env provider request = (Returned r, log) /\
    ((status r = 200%Z /\ exists text, body r = SummaryBody text) \/
     ((status r = 400%Z \/ status r = 500%Z) /\
      exists error, body r = ErrorBody error)) /\
    (status r = 200%Z <-> exists text, body r = SummaryBody text).
Proof.
  by_request_cases request;
    try (destruct (negb _);
         [| destruct (unset_or_empty _);
            [| destruct (prompt_of _); [destruct (provider _ _ _)|]]]);
    eexists; eexists; (split; [reflexivity|]); simpl;
    (split;
     [ first [ left; split; [reflexivity | eexists; reflexivity]
             | right; split; [auto | eexists; reflexivity] ]
     | split;
       [ first [ intros _; eexists; reflexivity | discriminate ]
       | first [ reflexivity | intros [text Habs]; discriminate Habs ] ] ]).
Qed.

(** X6: the answer has status 400 exactly when the body parses to a value
    other than [null] whose content is missing or falsy; the error string is
    then [Content is required]. *)
Theorem POST_400_iff env provider request :
  exists r log,
    handle env provider request = (Returned r, log) /\
    (status r = 400%Z <->
     exists parsed,
       request = RequestWithJson parsed /\ parsed <> JNull /\
       ToBoolean (get_property "content" parsed) = false) /\
    (status r = 400%Z -> body r = ErrorBody "Content is required").
Proof.
  by_request_cases request.
  - eexists; eexists; split; [reflexivity|]. simpl.
    split; [split; [discriminate | intros [p [Habs _]]; discriminate Habs]
           | discriminate].
  - eexists; eexists; split; [reflexivity|]. simpl.
    split; [split; [discriminate | intros [p [Hp [Hnn _]]]]| discriminate].
    inversion Hp; subst p. contradiction.
  - destruct (ToBoolean (get_property "content" parsed)) eqn:Htruthy; simpl.
    + assert (Hno :
        ~ exists p, RequestWithJson parsed = RequestWithJson p /\
                    p <> JNull /\
                    ToBoolean (get_property "content" p) = false).
      { intros [p [Hp [_ Hfalsy]]]. inversion Hp; subst p.
        rewrite Htruthy in Hfalsy. discriminate Hfalsy. }
      destruct (unset_or_empty _);
        [| destruct (prompt_of _); [destruct (provider _ _ _)|]];
        eexists; eexists; (split; [reflexivity|]); simpl;
        (split; [split; [discriminate | intros H; contradiction]
                | discriminate]).
    + eexists; eexists; split; [reflexivity|]. simpl.
      split; [|reflexivity].
      split; [|reflexivity].
      intros _. exists parsed. auto.
Qed.

(** X7: the answer has status 200 exactly when the body has a truthy content
    with a text, the credential is set and the provider answers the prompt;
    the summary is then the provider's text. *)
Theorem POST_200_iff env provider request :
  exists r log,
    handle env provider request = (Returned r, log) /\
    (status r = 200%Z <->
     exists parsed prompt text,
       request = RequestWithJson parsed /\
       ToBoolean (get_property "content" parsed) = true /\
       unset_or_empty (env "GEMINI_API_KEY") = false /\
       prompt_of (get_property "content" parsed) = Returned prompt /\
       provider (string_of (env "GEMINI_API_KEY")) model_name prompt
       = Returned text /\
       body r = SummaryBody text).
Proof.
  by_request_cases request.
  - eexists; eexists; split; [reflexivity|]. simpl.
    split; [discriminate | intros [p [q [t [Habs _]]]]; discriminate Habs].
  - eexists; eexists; split; [reflexivity|]. simpl.
    split; [discriminate | intros [p [q [t [Hp [Habs _]]]]]].
    inversion Hp; subst p. discriminate Habs.
  - destruct (ToBoolean (get_property "content" parsed)) eqn:Htruthy; simpl.
    + destruct (unset_or_empty (env "GEMINI_API_KEY")) eqn:Hkey.
      * eexists; eexists; split; [reflexivity|]. simpl.
        split; [discriminate | intros [p [q [t [_ [_ [Habs _]]]]]]].
        discriminate Habs.
      * destruct (prompt_of (get_property "content" parsed))
          as [prompt|e] eqn:Hprompt.
        -- destruct (provider _ _ prompt) as [text|e] eqn:Hcall.
           ++ eexists; eexists; split; [reflexivity|]. simpl.
              split; [intros _ | reflexivity].
              exists parsed, prompt, text. auto 10.
           ++ eexists; eexists; split; [reflexivity|]. simpl.
              split; [discriminate|].
              intros [p [q [t [Hp [_ [_ [Hq [Hc _]]]]]]]].
              inversion Hp; subst p. rewrite Hprompt in Hq.
              inversion Hq; subst q. rewrite Hcall in Hc. discriminate Hc.
        -- eexists; eexists; split; [reflexivity|]. simpl.
           split; [discriminate|].
           intros [p [q [t [Hp [_ [_ [Hq _]]]]]]].
           inversion Hp; subst p. rewrite Hprompt in Hq. discriminate Hq.
    + eexists; eexists; split; [reflexivity|]. simpl.
      split; [discriminate|].
      intros [p [q [t [Hp [Habs _]]]]]. inversion Hp; subst p.
      rewrite Htruthy in Habs. discriminate Habs.
Qed.

(** X8: the provider is called at most once, and only for a truthy content
    with a text and with the credential set; the call then carries the key
    of the environment, the model [gemini-2.5-flash] and the prompt.  With
    the credential unset or empty, or without content, it is never
    called. *)
Theorem POST_calls_provider_iff env provider request :
  exists r log,
    handle env provider request = (Returned r, log) /\
    (provider_calls log = [] \/
     exists apiKey prompt,
       provider_calls log = [(apiKey, "gemini-2.5-flash", prompt)] /\
       env "GEMINI_API_KEY" = Some apiKey /\ apiKey <> "") /\
    (provider_calls log <> [] <->
     exists parsed prompt,
       request = RequestWithJson parsed /\
       ToBoolean (get_property "content" parsed) = true /\
       unset_or_empty (env "GEMINI_API_KEY") = false /\
       prompt_of (get_property "content" parsed) = Returned prompt /\
       provider_calls log
       = [(string_of (env "GEMINI_API_KEY"), model_name, prompt)]).
Proof.
  assert (Hkeyed : forall prompt : string,
            unset_or_empty (env "GEMINI_API_KEY") = false ->
            exists apiKey prompt',
              [(string_of (env "GEMINI_API_KEY"), model_name, prompt)]
              = [(apiKey, "gemini-2.5-flash", prompt')] /\
              env "GEMINI_API_KEY" = Some apiKey /\ apiKey <> "").
  { intros prompt Hkey. destruct (env "GEMINI_API_KEY") as [k|] eqn:Hk;
      [|discriminate Hkey].
    exists k, prompt. split; [reflexivity|]. split; [reflexivity|].
    intros ->. discriminate Hkey. }
  by_request_cases request.
  - eexists; eexists; split; [reflexivity|]. simpl.
    split; [left; reflexivity|].
    split; [intros H; contradiction | intros [p [q [Habs _]]]].
    discriminate Habs.
  - eexists; eexists; split; [reflexivity|]. simpl.
    split; [left; reflexivity|].
    split; [intros H; contradiction | intros [p [q [Hp [Habs _]]]]].
    inversion Hp; subst p. discriminate Habs.
  - destruct (ToBoolean (get_property "content" parsed)) eqn:Htruthy; simpl.
    + destruct (unset_or_empty (env "GEMINI_API_KEY")) eqn:Hkey.
      * eexists; eexists; split; [reflexivity|]. simpl.
        split; [left; reflexivity|].
        split; [intros H; contradiction
               | intros [p [q [_ [_ [Habs _]]]]]; discriminate Habs].
      * destruct (prompt_of (get_property "content" parsed))
          as [prompt|e] eqn:Hprompt.
        -- destruct (provider _ _ prompt) as [text|e];
             (eexists; eexists; split; [reflexivity|]); simpl;
             (split; [right; apply Hkeyed; reflexivity|]);
             (split; [intros _ | discriminate]);
             exists parsed, prompt; auto 10.
        -- eexists; eexists; split; [reflexivity|]. simpl.
           split; [left; reflexivity|].
           split; [intros H; contradiction
                  | intros [p [q [_ [_ [_ [_ Habs]]]]]]; discriminate Habs].
    + eexists; eexists; split; [reflexivity|]. simpl.
      split; [left; reflexivity|].
      split; [intros H; contradiction
             | intros [p [q [_ [_ [_ [_ Habs]]]]]]; discriminate Habs].
Qed.

(** X9: the handler writes to the console exactly what it catches, once: a
    logged error goes with status 500 and its message (or the fixed text) in
    the body.  The answers 200 and 400 log nothing, and neither does the 500
    for a credential that is not configured. *)
Theorem POST_logs_what_it_catches env provider request :
  exists r log,
    handle env provider request = (Returned r, log) /\
    (console_errors log = [] \/
     exists e,
       console_errors log = [e] /\
       r = mkResponse 500 (ErrorBody (message_of e))) /\
    (status r <> 500%Z -> console_errors log = []) /\
    (body r = ErrorBody "GEMINI_API_KEY is not configured" ->
     unset_or_empty (env "GEMINI_API_KEY") = true ->
     (exists parsed,
        request = RequestWithJson parsed /\
        ToBoolean (get_property "content" parsed) = true) ->
     console_errors log = []).
Proof.
  by_request_cases request.
  - eexists; eexists; split; [reflexivity|]. simpl.
    split; [right; eexists; split; reflexivity|].
    split; [intros H; contradiction H; reflexivity|].
    intros _ _ [p [Habs _]]. discriminate Habs.
  - eexists; eexists; split; [reflexivity|]. simpl.
    split; [right; eexists; split; reflexivity|].
    split; [intros H; contradiction H; reflexivity|].
    intros _ _ [p [Hp Habs]]. inversion Hp; subst p. discriminate Habs.
  - destruct (ToBoolean (get_property "content" parsed)) eqn:Htruthy; simpl.
    + destruct (unset_or_empty (env "GEMINI_API_KEY")) eqn:Hkey.
      * eexists; eexists; split; [reflexivity|]. simpl. auto.
      * destruct (prompt_of (get_property "content" parsed))
          as [prompt|e] eqn:Hprompt;
          [destruct (provider _ _ prompt) as [text|e]|];
          (eexists; eexists; split; [reflexivity|]); simpl;
          (split;
           [ first [ left; reflexivity
                   | right; eexists; split; reflexivity ]
           | split;
             [ first [ reflexivity
                     | intros H; contradiction H; reflexivity ]
             | intros _ Habs; discriminate Habs ] ]).
    + eexists; eexists; split; [reflexivity|]. simpl. auto.
Qed.

End RouteFurtherProperties.

(** * The modal, event by event *)

Section ModalEventProperties.
Import Js MemoDetailModal Wire.

(** ** What an event leaves alone *)

Lemma rerender_frame (p : Props) (s : Instance) :
  props (rerender p s) = p /\
  isSummarizing (rerender p s) = isSummarizing s /\
  in_flight (rerender p s) = in_flight s /\
  calls (rerender p s) = calls s.
Proof.
  destruct s as [[m o c e d] su busy ls ov fl cs].
  destruct p as [m' o' c' e' d'].
  unfold rerender, effect_body, effect_cleanup, addEventListener,
    removeEventListener. simpl.
  destruct (deps_changed _ _); simpl; [|auto].
  destruct o'; simpl; [|auto].
  destruct (existsb _ _); simpl; auto.
Qed.

Lemma keydown_calls (key : string) (ls : list Listener) (s : Instance) :
  exists cs,
    fold_left (run_listener key) ls s =
    mkInstance (props s) (summary s) (isSummarizing s) (keydown_listeners s)
      (body_overflow s) (in_flight s) (calls s ++ cs)%list /\
    Forall (fun c => exists f, c = CallOnClose f) cs.
Proof.
  revert s. induction ls as [|l ls IH]; intros s; simpl.
  - exists []. rewrite app_nil_r. destruct s; split; [reflexivity|constructor].
  - destruct (IH (run_listener key s l)) as [cs [Hcs Hall]]. rewrite Hcs.
    destruct l as [f]. unfold run_listener, handleKeyDown.
    destruct (key =? "Escape"); simpl.
    + exists (CallOnClose f :: cs). rewrite <- app_assoc.
      split; [reflexivity|]. constructor; [eexists; reflexivity | exact Hall].
    + exists cs. split; [reflexivity | exact Hall].
Qed.

Lemma keydown_frame_all (key : string) (s : Instance) :
  props (keydown key s) = props s /\
  summary (keydown key s) = summary s /\
  isSummarizing (keydown key s) = isSummarizing s /\
  keydown_listeners (keydown key s) = keydown_listeners s /\
  body_overflow (keydown key s) = body_overflow s /\
  in_flight (keydown key s) = in_flight s.
Proof.
  unfold keydown.
  destruct (keydown_calls key (keydown_listeners s) s) as [cs [-> _]].
  simpl. auto 10.
Qed.

Lemma click_frame (e : Element) (answer : bool) (s : Instance) :
  props (click e answer s) = props s /\
  summary (click e answer s) = summary s /\
  keydown_listeners (click e answer s) = keydown_listeners s /\
  body_overflow (click e answer s) = body_overflow s.
Proof.
  destruct s as [[m o c ed d] su busy ls ov fl cs].
  unfold click, render, receives_clicks. simpl.
  destruct o; [|simpl; auto].
  destruct m as [memo_|]; [|simpl; auto].
  destruct e; simpl;
    unfold handleSummarize, handleEdit, handleDelete; simpl; auto.
  - destruct (su =? ""); simpl; auto.
    destruct busy; simpl; auto.
    destruct (content memo_ =? ""); simpl; auto.
  - destruct answer; simpl; auto.
Qed.

Lemma settle_frame (i : nat) (o : FetchOutcome) (s : Instance) :
  props (settle i o s) = props s /\
  keydown_listeners (settle i o s) = keydown_listeners s /\
  body_overflow (settle i o s) = body_overflow s.
Proof.
  destruct s as [pr su busy ls ov fl cs]. unfold settle. simpl.
  destruct (nth_error fl i); simpl; [|auto].
  destruct o as [[|] data|]; simpl; auto.
Qed.

(** ** What an event adds to the calls *)

Lemma step_calls (s : Instance) (ev : Event) :
  exists new,
    calls (step s ev) = (calls s ++ new)%list /\ Forall sent_to_route new.
Proof.
  destruct ev as [p | key | e answer | i o]; simpl.
  - exists []. rewrite app_nil_r.
    split; [apply rerender_frame | constructor].
  - unfold keydown.
    destruct (keydown_calls key (keydown_listeners s) s) as [cs [-> Hall]].
    exists cs. split; [reflexivity|].
    apply Forall_impl with (2 := Hall). intros c [f ->]. exact I.
  - destruct s as [[m o c ed d] su busy ls ov fl cs].
    unfold click, render, receives_clicks. simpl.
    assert (Hnone : exists new,
              cs = (cs ++ new)%list /\ Forall sent_to_route new)
      by (exists []; rewrite app_nil_r; split; [reflexivity | constructor]).
    destruct o; [|exact Hnone].
    destruct m as [memo_|]; [|exact Hnone].
    destruct e; simpl;
      unfold handleSummarize, handleEdit, handleDelete; simpl;
      try exact Hnone;
      try (eexists; split; [rewrite <- ?app_assoc; reflexivity
                           | repeat constructor]).
    + destruct (su =? ""); simpl; [|exact Hnone].
      destruct busy; simpl; [exact Hnone|].
      destruct (content memo_ =? "") eqn:Hempty; simpl; [exact Hnone|].
      eexists; split; [reflexivity|].
      constructor; [|constructor]. simpl.
      split; [reflexivity|]. split; [reflexivity|].
      exists (content memo_). split; [reflexivity|].
      apply String.eqb_neq. exact Hempty.
    + destruct answer; simpl;
        eexists; (split; [rewrite <- ?app_assoc; reflexivity
                         | repeat constructor]).
  - destruct s as [pr su busy ls ov fl cs]. unfold settle. simpl.
    destruct (nth_error fl i); simpl;
      [| exists []; rewrite app_nil_r; split; [reflexivity | constructor]].
    destruct o as [[|] data|]; simpl.
    + exists []. rewrite app_nil_r. split; [reflexivity | constructor].
    + eexists; split; [reflexivity | repeat constructor].
    + eexists; split; [rewrite <- app_assoc; reflexivity
                      | repeat constructor].
Qed.

(** ** The edit button and the calls of [onClose] *)

(** X11: on an open modal that shows a memo, a click on the edit button
    calls [onEdit] with that memo and then [onClose], once each, and nothing
    else: [onDelete] is not called, no request is sent and the state of the
    summary is as before.  Without a memo [handleEdit] does nothing. *)
Theorem edit_delegates_then_closes (s : Instance) (m : Memo) (answer : bool) :
  isOpen (props s) = true ->
  memo (props s) = Some m ->
  let edited := step s (Click EditButton answer) in
  calls edited =
  (calls s ++ [CallOnEdit (onEdit (props s)) m;
               CallOnClose (onClose (props s))])%list /\
  onDelete_calls (calls edited) = onDelete_calls (calls s) /\
  onClose_calls (calls edited) = S (onClose_calls (calls s)) /\
  summary edited = summary s /\
  isSummarizing edited = isSummarizing s /\
  in_flight edited = in_flight s /\
  (forall s', memo (props s') = None -> handleEdit s' = s').
Proof.
  destruct s as [[m0 o c e d] su busy ls ov fl cs]. simpl.
  intros -> ->.
  unfold click, render, handleEdit, handleBackdropClick, call. simpl.
  split; [rewrite <- app_assoc; reflexivity|].
  split; [rewrite !onDelete_calls_app; simpl; rewrite !app_nil_r;
          reflexivity|].
  split; [rewrite !onClose_calls_app; simpl; lia|].
  repeat split. intros s' Hnone. rewrite Hnone. reflexivity.
Qed.

(** X12: a click calls [onClose] at most once, also when it bubbles from a
    button to the backdrop; it calls it exactly when the modal is rendered
    and the click hits the backdrop itself, the close button, the edit
    button, or the delete button with the deletion confirmed. *)
Theorem click_closes_at_most_once (s : Instance) (e : Element)
    (answer : bool) :
  let clicked := step s (Click e answer) in
  (onClose_calls (calls clicked) <= S (onClose_calls (calls s)))%nat /\
  (onClose_calls (calls clicked) = S (onClose_calls (calls s)) <->
   render s <> None /\
   (e = Backdrop \/ e = CloseButton \/ e = EditButton \/
    (e = DeleteButton /\ answer = true))) /\
  (onClose_calls (calls clicked) <> S (onClose_calls (calls s)) ->
   onClose_calls (calls clicked) = onClose_calls (calls s)).
Proof.
  destruct s as [[m o c ed d] su busy ls ov fl cs].
  cbv zeta. unfold step, click, render, receives_clicks. simpl.
  assert (Hrest : forall n : nat,
            (n <= S n)%nat /\
            (n = S n <-> None <> @None View /\
               (e = Backdrop \/ e = CloseButton \/ e = EditButton \/
                (e = DeleteButton /\ answer = true))) /\
            (n <> S n -> n = n)).
  { intros n. split; [lia|]. split; [|reflexivity].
    split; [lia | intros [Habs _]; contradiction]. }
  destruct o; [|apply Hrest].
  destruct m as [memo_|]; [|apply Hrest].
  assert (Hstay : forall (v : View) (n : nat),
            e = ModalContent \/ e = SummarizeButton \/
            (e = DeleteButton /\ answer = false) ->
            (n <= S n)%nat /\
            (n = S n <-> Some v <> None /\
               (e = Backdrop \/ e = CloseButton \/ e = EditButton \/
                (e = DeleteButton /\ answer = true))) /\
            (n <> S n -> n = n)).
  { intros v n He. split; [lia|]. split; [|reflexivity].
    split; [lia|]. intros [_ Hc].
    destruct He as [-> | [-> | [-> ->]]];
      destruct Hc as [Hc | [Hc | [Hc | [Hc Ha]]]]; discriminate. }
  assert (Hgo : forall (v : View) (n k : nat),
            k = S n ->
            e = Backdrop \/ e = CloseButton \/ e = EditButton \/
            (e = DeleteButton /\ answer = true) ->
            (k <= S n)%nat /\
            (k = S n <-> Some v <> None /\
               (e = Backdrop \/ e = CloseButton \/ e = EditButton \/
                (e = DeleteButton /\ answer = true))) /\
            (k <> S n -> k = n)).
  { intros v n k -> He. split; [lia|]. split; [|intros H; contradiction].
    split; [intros _; split; [discriminate | exact He] | reflexivity]. }
  destruct e; simpl;
    unfold handleSummarize, handleEdit, handleDelete; simpl.
  - apply Hgo; [rewrite onClose_calls_app; simpl; lia | auto].
  - apply Hstay. auto.
  - apply Hgo; [rewrite onClose_calls_app; simpl; lia | auto].
  - destruct (su =? ""); simpl; [|apply Hstay; auto].
    destruct busy; simpl; [apply Hstay; auto|].
    destruct (content memo_ =? ""); simpl; [apply Hstay; auto|].
    rewrite onClose_calls_app. simpl. rewrite Nat.add_0_r.
    apply Hstay. auto.
  - apply Hgo; [rewrite !onClose_calls_app; simpl; lia | auto].
  - destruct answer; simpl.
    + apply Hgo; [rewrite !onClose_calls_app; simpl; lia | auto].
    + rewrite onClose_calls_app. simpl. rewrite Nat.add_0_r.
      apply Hstay. auto.
Qed.

(** ** The document over a run *)

Lemma step_overflow (s : Instance) (ev : Event) :
  (body_overflow s =? "hidden") = isOpen (props s) ->
  (body_overflow (step s ev) =? "hidden") = isOpen (props (step s ev)).
Proof.
  intros Hs. destruct ev as [p | key | e answer | i o]; simpl.
  - destruct s as [[m o c e d] su busy ls ov fl cs].
    destruct p as [m' o' c' e' d'].
    unfold rerender, deps_changed, effect_body, effect_cleanup,
      addEventListener, removeEventListener in *. simpl in *.
    destruct (Nat.eqb c c'); destruct o, o'; simpl in *;
      try destruct (existsb _ _); simpl; auto.
  - destruct (keydown_frame_all key s) as [-> [_ [_ [_ [-> _]]]]]. exact Hs.
  - destruct (click_frame e answer s) as [-> [_ [_ ->]]]. exact Hs.
  - destruct (settle_frame i o s) as [-> [_ ->]]. exact Hs.
Qed.

Lemma run_overflow (p : Props) (evs : list Event) :
  (body_overflow (run p evs) =? "hidden") = isOpen (props (run p evs)).
Proof.
  unfold run.
  assert (Hmount : (body_overflow (mount p) =? "hidden")
                   = isOpen (props (mount p))).
  { destruct p as [m o c e d]. unfold mount, effect_body, addEventListener.
    destruct o; reflexivity. }
  revert Hmount. generalize (mount p) as s.
  induction evs as [|ev evs IH]; intros s Hs; simpl; [exact Hs|].
  apply IH, step_overflow, Hs.
Qed.

(** X13: in every state an instance reaches, the body of the document has
    its overflow hidden exactly when the modal is open; the render that
    closes an open modal sets it to [unset]. *)
Theorem scroll_locked_iff_open (p0 : Props) (evs : list Event) :
  let s := run p0 evs in
  (body_overflow s = "hidden" <-> isOpen (props s) = true) /\
  (forall p, isOpen (props s) = true -> isOpen p = false ->
     body_overflow (step s (Render p)) = "unset").
Proof.
  intros s. pose proof (run_overflow p0 evs) as Hs. fold s in Hs.
  clearbody s. split.
  - rewrite <- Hs. split; [intros ->; reflexivity | apply String.eqb_eq].
  - clear Hs. intros p Hopen Hclosed.
    destruct s as [[m o c e d] su busy ls ov fl cs].
    destruct p as [m' o' c' e' d']. simpl in *. subst o o'.
    unfold rerender, deps_changed, effect_body, effect_cleanup. simpl.
    reflexivity.
Qed.

(** X14: in every state an instance reaches with the modal closed, no
    listener of the component is left on the document, and a key, Escape
    included, changes nothing. *)
Theorem closed_modal_ignores_keys (p0 : Props) (evs : list Event) :
  let s := run p0 evs in
  isOpen (props s) = false ->
  keydown_listeners s = [] /\
  forall key, step s (KeyDown key) = s.
Proof.
  intros s. destruct (run_consistent p0 evs) as [Hls _].
  fold s in Hls. clearbody s.
  destruct s as [[m o c e d] su busy ls ov fl cs]. simpl in *.
  intros ->. unfold expected_listeners in Hls. simpl in Hls. subst ls.
  split; reflexivity.
Qed.

(** ** The end of a request *)

(** X15: when a pending request settles, the flag is cleared and the request
    is no longer pending, whatever the outcome.  A response that is ok puts
    its summary in the state and calls nothing; one that is not ok leaves
    the summary and raises an alert with the error of the response, or with
    [Unknown error] when it has none or an empty one; a rejection leaves the
    summary, writes to the console and raises the other alert.  Where no
    request is pending, nothing happens. *)
Theorem settle_outcomes (s : Instance) (i : nat) (c : string) :
  nth_error (in_flight s) i = Some c ->
  (forall o,
     isSummarizing (step s (Settle i o)) = false /\
     in_flight (step s (Settle i o)) = remove_nth i (in_flight s)) /\
  (forall data,
     summary (step s (Settle i (Responded true data))) = data_summary data /\
     calls (step s (Settle i (Responded true data))) = calls s) /\
  (forall data,
     summary (step s (Settle i (Responded false data))) = summary s /\
     calls (step s (Settle i (Responded false data))) =
     (calls s ++ [failure_alert (error_or_unknown data)])%list) /\
  (summary (step s (Settle i Rejected)) = summary s /\
   calls (step s (Settle i Rejected)) =
   (calls s ++ [ConsoleError "Failed to summarize:"; request_alert])%list) /\
  (forall text error,
     error_or_unknown (mkData text None) = "Unknown error" /\
     error_or_unknown (mkData text (Some "")) = "Unknown error" /\
     (error <> "" -> error_or_unknown (mkData text (Some error)) = error)) /\
  (forall j o, nth_error (in_flight s) j = None -> step s (Settle j o) = s).
Proof.
  intros Hpending. destruct s as [pr su busy ls ov fl cs].
  simpl in *. unfold settle. simpl. rewrite Hpending.
  split; [|split; [|split; [|split; [|split]]]].
  - intros o. destruct o as [[|] data|]; split; reflexivity.
  - intros data. split; reflexivity.
  - intros data. split; reflexivity.
  - split; [reflexivity|]. simpl. rewrite <- app_assoc. reflexivity.
  - intros text error. split; [reflexivity|]. split; [reflexivity|].
    intros Hne. unfold error_or_unknown. simpl.
    destruct (error =? "") eqn:Heq; [|reflexivity].
    apply String.eqb_eq in Heq. contradiction.
  - intros j o Hnone. rewrite Hnone. reflexivity.
Qed.

(** X16: a render, whether it closes the modal, opens it again or shows
    another memo, cancels no request: the pending requests and the flag are
    as before and nothing is called.  The answer of a request that was
    pending then lands in the state of whatever the modal shows by then. *)
Theorem render_keeps_pending_requests (s : Instance) (p : Props) :
  let rendered := step s (Render p) in
  in_flight rendered = in_flight s /\
  isSummarizing rendered = isSummarizing s /\
  calls rendered = calls s /\
  (forall c data,
     in_flight s = [c] ->
     summary (step rendered (Settle 0 (Responded true data)))
     = data_summary data /\
     props (step rendered (Settle 0 (Responded true data))) = p).
Proof.
  cbv zeta. simpl step.
  destruct (rerender_frame p s) as [Hprops [Hbusy [Hfl Hcalls]]].
  split; [exact Hfl|]. split; [exact Hbusy|]. split; [exact Hcalls|].
  intros c data Hone. unfold settle. rewrite Hfl, Hone. simpl.
  split; [reflexivity | exact Hprops].
Qed.

(** X17: a key or a click changes neither the props, nor the summary, nor
    what the component has put on the document; a key starts no request and
    a click starts at most one. *)
Theorem interaction_frame (s : Instance) :
  (forall key,
     let s' := step s (KeyDown key) in
     props s' = props s /\ summary s' = summary s /\
     keydown_listeners s' = keydown_listeners s /\
     body_overflow s' = body_overflow s /\
     isSummarizing s' = isSummarizing s /\ in_flight s' = in_flight s) /\
  (forall e answer,
     let s' := step s (Click e answer) in
     props s' = props s /\ summary s' = summary s /\
     keydown_listeners s' = keydown_listeners s /\
     body_overflow s' = body_overflow s /\
     (in_flight s' = in_flight s \/
      exists c, in_flight s' = (in_flight s ++ [c])%list)).
Proof.
  split.
  - intros key. cbv zeta. simpl step.
    destruct (keydown_frame_all key s) as [H1 [H2 [H3 [H4 [H5 H6]]]]].
    auto 10.
  - intros e answer. cbv zeta. simpl step.
    destruct (click_frame e answer s) as [H1 [H2 [H3 H4]]].
    repeat (split; [assumption|]).
    destruct s as [[m o c ed d] su busy ls ov fl cs].
    unfold click, render, receives_clicks. simpl.
    destruct o; [|left; reflexivity].
    destruct m as [memo_|]; [|left; reflexivity].
    destruct e; simpl;
      unfold handleSummarize, handleEdit, handleDelete; simpl;
      try (left; reflexivity).
    + destruct (su =? ""); simpl; [|left; reflexivity].
      destruct busy; simpl; [left; reflexivity|].
      destruct (content memo_ =? ""); simpl; [left; reflexivity|].
      right. eexists; reflexivity.
    + destruct answer; left; reflexivity.
Qed.

(** X18: on an open modal that shows a memo, once a request has settled
    with a summary that is not empty, the summary is rendered in place of
    the button, and a click on the button changes nothing; with an empty
    summary nothing is shown and the button is rendered again, enabled. *)
Theorem summary_replaces_button (s : Instance) (i : nat) (c : string)
    (data : ResponseData) :
  isOpen (props s) = true ->
  memo (props s) <> None ->
  nth_error (in_flight s) i = Some c ->
  let settled := step s (Settle i (Responded true data)) in
  (data_summary data <> "" ->
   render settled = Some (mkView false None (Some (data_summary data))) /\
   forall answer, step settled (Click SummarizeButton answer) = settled) /\
  (data_summary data = "" ->
   render settled = Some (mkView false (Some false) None)).
Proof.
  destruct s as [[m o cl ed d] su busy ls ov fl cs]. simpl.
  intros -> Hmemo Hpending.
  destruct m as [memo_|]; [|contradiction].
  unfold settle. simpl. rewrite Hpending. simpl.
  unfold click, render, receives_clicks. simpl.
  split.
  - intros Hne. apply String.eqb_neq in Hne. rewrite Hne.
    split; [reflexivity|]. intros answer. simpl. reflexivity.
  - intros ->. reflexivity.
Qed.

(** X19: in every state an instance reaches, every request it has sent goes
    to [/api/summarize] by POST with an object whose [content] is a string
    that is not empty. *)
Theorem modal_only_sends_to_route (p0 : Props) (evs : list Event) :
  Forall sent_to_route (calls (run p0 evs)).
Proof.
  unfold run.
  assert (Hmount : Forall sent_to_route (calls (mount p0))).
  { destruct p0 as [m o c e d]. unfold mount, effect_body, addEventListener.
    destruct o; simpl; constructor. }
  revert Hmount. generalize (mount p0) as s.
  induction evs as [|ev evs IH]; intros s Hs; simpl; [exact Hs|].
  apply IH. destruct (step_calls s ev) as [new [-> Hnew]].
  apply Forall_app. split; assumption.
Qed.

End ModalEventProperties.

(** * The modal and the route together *)

Section EndToEndProperties.
Import Js Summarize MemoDetailModal Wire.

Variable number_to_string : spec_float -> string.
Variable destructure_null_message : string.
Variable to_primitive_message : string.

#[local] Abbreviation handle :=
  (Summarize.handle number_to_string destructure_null_message
     to_primitive_message).

(** The route on the body the modal sends for a content that is not
    empty. *)
Lemma handle_modal_payload env provider (text : string) :
  (text =? "") = false ->
  handle env provider (RequestWithJson (JObject [("content", JString text)])) =
  if unset_or_empty (env "GEMINI_API_KEY") then
    (Returned (mkResponse 500 (ErrorBody "GEMINI_API_KEY is not configured")),
     [])
  else
    match
      provider (string_of (env "GEMINI_API_KEY")) model_name
        (instruction ++ text)
    with
    | Returned answer =>
        (Returned (mkResponse 200 (SummaryBody answer)),
         [GenerateContent (string_of (env "GEMINI_API_KEY")) model_name
            (instruction ++ text)])
    | Threw e =>
        (Returned (mkResponse 500 (ErrorBody (message_of e))),
         [GenerateContent (string_of (env "GEMINI_API_KEY")) model_name
            (instruction ++ text);
          Summarize.ConsoleError "Error generating summary:" e])
    end.
Proof.
  intros Hne. rewrite handle_unfold_non_null by discriminate. cbv zeta.
  change (get_property "content" (JObject [("content", JString text)]))
    with (Some (JString text)).
  rewrite prompt_of_string.
  unfold ToBoolean. rewrite Hne. reflexivity.
Qed.

(** X20: the request [handleSummarize] sends for a memo with content is
    never answered with status 400 by the route; it is answered with 500
    exactly when the credential is not configured or the provider throws on
    the instruction followed by the content of the memo, and with 200 and the
    provider's text otherwise. *)
Theorem modal_request_served env provider (s : Instance) (m : Memo) :
  memo (props s) = Some m ->
  (content m =? "") = false ->
  exists payload r log,
    calls (handleSummarize s) =
    (calls s ++ [Fetch "/api/summarize" "POST" payload])%list /\
    handle env provider (RequestWithJson payload) = (Returned r, log) /\
    status r <> 400%Z /\
    (status r = 500%Z <->
     unset_or_empty (env "GEMINI_API_KEY") = true \/
     exists e,
       provider (string_of (env "GEMINI_API_KEY")) model_name
         (instruction ++ content m) = Threw e) /\
    (status r = 200%Z <->
     unset_or_empty (env "GEMINI_API_KEY") = false /\
     exists answer,
       provider (string_of (env "GEMINI_API_KEY")) model_name
         (instruction ++ content m) = Returned answer /\
       body r = SummaryBody answer).
Proof.
  intros Hmemo Hne.
  exists (JObject [("content", JString (content m))]).
  rewrite (handle_modal_payload env provider (content m) Hne).
  unfold handleSummarize. rewrite Hmemo, Hne. simpl calls.
  destruct (unset_or_empty (env "GEMINI_API_KEY")) eqn:Hkey.
  - eexists; eexists. split; [reflexivity|]. split; [reflexivity|]. simpl.
    split; [discriminate|]. split; [split; auto|].
    split; [discriminate | intros [Habs _]; discriminate Habs].
  - destruct (provider _ _ _) as [answer|e] eqn:Hcall.
    + eexists; eexists. split; [reflexivity|]. split; [reflexivity|]. simpl.
      split; [discriminate|]. split.
      * split; [discriminate|].
        intros [Habs | [e Habs]]; discriminate Habs.
      * split; [intros _; split; [reflexivity|] | reflexivity].
        exists answer. split; reflexivity.
    + eexists; eexists. split; [reflexivity|]. split; [reflexivity|]. simpl.
      split; [discriminate|]. split.
      * split; [intros _; right; exists e; reflexivity | reflexivity].
      * split; [discriminate|].
        intros [_ [answer [Habs _]]]. discriminate Habs.
Qed.

(** X21: a click on the enabled button of an open modal, the answer of the
    route and its arrival, in a row.  The click sends one request; the
    answer of the route is one the modal can read; once it has arrived the
    flag is cleared and nothing is pending.  When the provider returned a
    text, that text is the summary and no alert is raised; when the
    credential is not configured, or the provider threw, the summary stays
    empty and one alert carries the error string of the route ([Unknown
    error] in place of an empty one). *)
Theorem summarize_round_trip env provider (s : Instance) (m : Memo)
    (answer : bool) :
  render s = Some (mkView false (Some false) None) ->
  memo (props s) = Some m ->
  (content m =? "") = false ->
  in_flight s = [] ->
  let sent := step s (Click SummarizeButton answer) in
  exists payload r log o,
    calls sent = (calls s ++ [Fetch "/api/summarize" "POST" payload])%list /\
    isSummarizing sent = true /\
    handle env provider (RequestWithJson payload) = (Returned r, log) /\
    fetch_outcome_of r = Some o /\
    isSummarizing (step sent (Settle 0 o)) = false /\
    in_flight (step sent (Settle 0 o)) = [] /\
    (unset_or_empty (env "GEMINI_API_KEY") = true ->
     summary (step sent (Settle 0 o)) = "" /\
     calls (step sent (Settle 0 o)) =
     (calls sent ++ [failure_alert "GEMINI_API_KEY is not configured"])%list)
    /\
    (unset_or_empty (env "GEMINI_API_KEY") = false ->
     (forall text,
        provider (string_of (env "GEMINI_API_KEY")) model_name
          (instruction ++ content m) = Returned text ->
        summary (step sent (Settle 0 o)) = text /\
        calls (step sent (Settle 0 o)) = calls sent) /\
     (forall e,
        provider (string_of (env "GEMINI_API_KEY")) model_name
          (instruction ++ content m) = Threw e ->
        summary (step sent (Settle 0 o)) = "" /\
        calls (step sent (Settle 0 o)) =
        (calls sent ++
         [failure_alert
            (if message_of e =? "" then "Unknown error" else message_of e)])
        %list)).
Proof.
  destruct s as [[m0 o c ed d] su busy ls ov fl cs].
  destruct m as [mid mtitle mcontent mcategory mtags mcreated mupdated].
  unfold render. cbn [props memo isOpen summary isSummarizing in_flight
                      content calls].
  intros Hview Hmemo Hne Hfl. subst m0 fl.
  destruct o; [|discriminate Hview].
  destruct (su =? "") eqn:Hsu; [|discriminate Hview].
  apply String.eqb_eq in Hsu. subst su.
  inversion Hview as [Hbusy]. subst busy. clear Hview.
  exists (JObject [("content", JString mcontent)]).
  rewrite (handle_modal_payload env provider mcontent Hne).
  destruct mcontent as [|a rest]; [discriminate Hne|]. clear Hne.
  unfold click, render, receives_clicks, handleSummarize,
    handleBackdropClick. simpl.
  destruct (unset_or_empty (env "GEMINI_API_KEY")) eqn:Hkey.
  - eexists; eexists; eexists.
    split; [reflexivity|]. split; [reflexivity|]. split; [reflexivity|].
    split; [reflexivity|]. unfold settle. simpl.
    split; [reflexivity|]. split; [reflexivity|].
    split; [intros _; split; reflexivity | intros Habs; discriminate Habs].
  - destruct (provider _ _ _) as [text|e] eqn:Hcall.
    + eexists; eexists; eexists.
      split; [reflexivity|]. split; [reflexivity|]. split; [reflexivity|].
      split; [reflexivity|]. unfold settle. simpl.
      split; [reflexivity|]. split; [reflexivity|].
      split; [intros Habs; discriminate Habs|]. intros _. split.
      * intros text' Heq. inversion Heq. split; reflexivity.
      * intros e Habs. discriminate Habs.
    + eexists; eexists; eexists.
      split; [reflexivity|]. split; [reflexivity|]. split; [reflexivity|].
      split; [reflexivity|]. unfold settle. simpl.
      split; [reflexivity|]. split; [reflexivity|].
      split; [intros Habs; discriminate Habs|]. intros _. split.
      * intros text Habs. discriminate Habs.
      * intros e' Heq. inversion Heq. split; reflexivity.
Qed.

End EndToEndProperties.

(** * The badge of a category and the database client *)

Section BadgeAndClientProperties.
Import Js CategoryBadge Supabase.

Variable object_prototype_has : string -> bool.

(** X22: [getCategoryColor] gives each of the five categories the classes
    the literal lists for it, whatever [Object.prototype] holds, and gives
    the classes of [other] to every name that is neither one of the five nor
    a property of [Object.prototype]; for a name that is such a property it
    gives the inherited member and no classes.  The classes it gives are
    always among the five of the literal. *)
Theorem getCategoryColor_table (category : string) :
  (forall classes,
     In (category, classes) colors ->
     getCategoryColor object_prototype_has category = OwnString classes) /\
  (own category colors = None ->
   object_prototype_has category = false ->
   getCategoryColor object_prototype_has category
   = OwnString "bg-gray-100 text-gray-800") /\
  (own category colors = None ->
   object_prototype_has category = true ->
   getCategoryColor object_prototype_has category = Inherited category) /\
  (forall classes,
     getCategoryColor object_prototype_has category = OwnString classes ->
     In classes (map snd colors)).
Proof.
  split; [|split; [|split]].
  - intros classes Hin. simpl in Hin.
    repeat (destruct Hin as [Heq | Hin];
            [inversion Heq; subst; reflexivity|]).
    contradiction.
  - intros Hown Hno. unfold getCategoryColor, colors_get.
    rewrite Hown, Hno. reflexivity.
  - intros Hown Hyes. unfold getCategoryColor, colors_get.
    rewrite Hown, Hyes. reflexivity.
  - intros classes. unfold getCategoryColor, colors_get.
    change colors_other with (OwnString "bg-gray-100 text-gray-800").
    unfold colors. cbn [own map snd].
    repeat (destruct (_ =? category);
            [cbn [truthy String.eqb Ascii.eqb Bool.eqb negb];
             intros Heq; inversion Heq; cbn [In]; auto 10|]).
    destruct (object_prototype_has category); cbn [truthy]; intros Heq;
      inversion Heq; cbn [In]; auto 10.
Qed.

(** X23: when [NEXT_PUBLIC_SUPABASE_URL] or [NEXT_PUBLIC_SUPABASE_ANON_KEY]
    is unset or empty, [createSupabaseClient], and with it the loading of
    the module, throws an [Error] with the fixed message, whatever the SDK
    would do; when both are set and not empty, the result is that of the
    SDK's [createClient] on exactly these two values.  One of the two cases
    always holds. *)
Theorem createSupabaseClient_configuration
    (SupabaseClient : Type)
    (createClient : string -> string -> outcome SupabaseClient)
    (env : Summarize.Env) :
  ((env "NEXT_PUBLIC_SUPABASE_URL" = None \/
    env "NEXT_PUBLIC_SUPABASE_URL" = Some "" \/
    env "NEXT_PUBLIC_SUPABASE_ANON_KEY" = None \/
    env "NEXT_PUBLIC_SUPABASE_ANON_KEY" = Some "") ->
   createSupabaseClient SupabaseClient createClient env
   = Threw (ErrorObject missing_configuration_message) /\
   supabase SupabaseClient createClient env
   = Threw (ErrorObject missing_configuration_message)) /\
  (forall url key,
     env "NEXT_PUBLIC_SUPABASE_URL" = Some url -> url <> "" ->
     env "NEXT_PUBLIC_SUPABASE_ANON_KEY" = Some key -> key <> "" ->
     createSupabaseClient SupabaseClient createClient env
     = createClient url key) /\
  ((env "NEXT_PUBLIC_SUPABASE_URL" = None \/
    env "NEXT_PUBLIC_SUPABASE_URL" = Some "" \/
    env "NEXT_PUBLIC_SUPABASE_ANON_KEY" = None \/
    env "NEXT_PUBLIC_SUPABASE_ANON_KEY" = Some "") \/
   exists url key,
     env "NEXT_PUBLIC_SUPABASE_URL" = Some url /\ url <> "" /\
     env "NEXT_PUBLIC_SUPABASE_ANON_KEY" = Some key /\ key <> "").
Proof.
  unfold supabase, createSupabaseClient, supabaseUrl, supabaseAnonKey,
    Summarize.unset_or_empty, Summarize.string_of.
  split; [|split].
  - intros [-> | [-> | [-> | ->]]]; cbn [String.eqb orb];
      rewrite ?orb_true_r; split; reflexivity.
  - intros url key -> Hurl -> Hkey.
    apply String.eqb_neq in Hurl, Hkey. rewrite Hurl, Hkey. reflexivity.
  - destruct (env "NEXT_PUBLIC_SUPABASE_URL") as [url|]; [|auto].
    destruct (env "NEXT_PUBLIC_SUPABASE_ANON_KEY") as [key|]; [|auto].
    destruct (String.eqb_spec url "") as [-> | Hurl]; [auto|].
    destruct (String.eqb_spec key "") as [-> | Hkey]; [auto 10|].
    right. exists url, key. auto.
Qed.

End BadgeAndClientProperties.

(** * More examples *)

Section FurtherExamples.
Import Js Summarize MemoDetailModal Wire Examples MoreExamples.

Lemma edit_delegates_then_closes_witness :
  calls (step (mount (open_on groceries)) (Click EditButton false))
  = [CallOnEdit 2 groceries; CallOnClose 1].
Proof.
  destruct (edit_delegates_then_closes (mount (open_on groceries)) groceries
              false eq_refl eq_refl) as [Hcalls _].
  exact Hcalls.
Defined.

Lemma closed_modal_ignores_keys_witness :
  isOpen (props (run (open_on groceries) [Render (closed_on groceries)]))
  = false /\
  step (run (open_on groceries) [Render (closed_on groceries)])
    (KeyDown "Escape")
  = run (open_on groceries) [Render (closed_on groceries)].
Proof.
  split; [reflexivity|].
  destruct (closed_modal_ignores_keys (open_on groceries)
              [Render (closed_on groceries)] eq_refl) as [_ Hkeys].
  apply Hkeys.
Defined.

Lemma settle_outcomes_witness :
  nth_error (in_flight summarizing) 0 = Some "milk, eggs, bread" /\
  calls (step summarizing (Settle 0 Rejected)) =
  [Fetch "/api/summarize" "POST"
     (JObject [("content", JString "milk, eggs, bread")]);
   ConsoleError "Failed to summarize:"; request_alert] /\
  isSummarizing (step summarizing (Settle 0 Rejected)) = false.
Proof.
  split; [reflexivity|].
  destruct (settle_outcomes summarizing 0 "milk, eggs, bread" eq_refl)
    as [Hflag [_ [_ [[_ Hcalls] _]]]].
  split; [exact Hcalls | apply (Hflag Rejected)].
Defined.

Lemma summary_replaces_button_witness :
  render (step summarizing (Settle 0 summarized))
  = Some (mkView false None (Some "milk, eggs and bread")) /\
  render (step summarizing
            (Settle 0 (Responded true (mkData "" None))))
  = Some (mkView false (Some false) None).
Proof.
  split.
  - destruct (summary_replaces_button summarizing 0 "milk, eggs, bread"
                (mkData "milk, eggs and bread" None) eq_refl
                ltac:(discriminate) eq_refl) as [Hshown _].
    apply Hshown. discriminate.
  - destruct (summary_replaces_button summarizing 0 "milk, eggs, bread"
                (mkData "" None) eq_refl ltac:(discriminate) eq_refl)
      as [_ Hempty].
    apply Hempty. reflexivity.
Defined.

Lemma modal_request_served_witness :
  exists payload r log,
    calls (handleSummarize (mount (open_on groceries))) =
    [Fetch "/api/summarize" "POST" payload] /\
    POST_example env_with_key (provider_answering "short")
      (RequestWithJson payload) = (Returned r, log) /\
    status r <> 400%Z.
Proof.
  destruct (modal_request_served no_number_to_string
              v8_destructure_null_message v8_to_primitive_message
              env_with_key (provider_answering "short")
              (mount (open_on groceries)) groceries eq_refl eq_refl)
    as [payload [r [log [Hsent [Hserved [Hstatus _]]]]]].
  exists payload, r, log. auto.
Defined.

Lemma summarize_round_trip_witness :
  exists payload r log o,
    POST_example env_with_key (provider_answering "short")
      (RequestWithJson payload) = (Returned r, log) /\
    fetch_outcome_of r = Some o /\
    summary
      (step (step (mount (open_on groceries)) (Click SummarizeButton false))
         (Settle 0 o))
    = "short".
Proof.
  destruct (summarize_round_trip no_number_to_string
              v8_destructure_null_message v8_to_primitive_message
              env_with_key (provider_answering "short")
              (mount (open_on groceries)) groceries false
              eq_refl eq_refl eq_refl eq_refl)
    as [payload [r [log [o [_ [_ [Hserved [Hread [_ [_ [_ Hset]]]]]]]]]]].
  exists payload, r, log, o.
  split; [exact Hserved|]. split; [exact Hread|].
  destruct (Hset eq_refl) as [Htext _].
  apply (Htext "short"). reflexivity.
Defined.

(** The badge of a name that [Object.prototype] holds, and of one it does
    not. *)
Example getCategoryColor_examples :
  CategoryBadge.getCategoryColor object_prototype_has "study"
  = CategoryBadge.OwnString "bg-purple-100 text-purple-800" /\
  CategoryBadge.getCategoryColor object_prototype_has "archive"
  = CategoryBadge.OwnString "bg-gray-100 text-gray-800" /\
  CategoryBadge.getCategoryColor object_prototype_has "constructor"
  = CategoryBadge.Inherited "constructor".
Proof. repeat split. Qed.

(** The client with both variables set, and with the key missing, for an
    SDK that records the two values it is given. *)
Example createSupabaseClient_examples :
  Supabase.createSupabaseClient (string * string)
    (fun url key => Returned (url, key)) env_with_supabase
  = Returned ("https://db.example", "anon-1") /\
  Supabase.createSupabaseClient (string * string)
    (fun url key => Returned (url, key)) env_with_url_only
  = Threw (ErrorObject Supabase.missing_configuration_message).
Proof. split; reflexivity. Qed.

End FurtherExamples.

(** * The summarize button between two commits *)

Section PageProperties.
Import Js MemoDetailModal Page Examples.

(** The schedule that commits after every event is the run of the
    instance. *)
Lemma dispatch_then_commit (s : Instance) (ev : Event) :
  page_step (page_step (commit s) (Dispatch ev)) Commit = commit (step s ev).
Proof.
  destruct ev as [p | key | e answer | i o]; simpl; try reflexivity.
  unfold dispatch_click, click. simpl.
  destruct (render s) as [v|]; [|reflexivity].
  destruct (receives_clicks v e); reflexivity.
Qed.

Lemma page_run_committed_each (p : Props) (evs : list Event) :
  page_run p (committed_each evs) = commit (run p evs).
Proof.
  unfold page_run, run. generalize (mount p) as s.
  induction evs as [|ev evs IH]; intros s; [reflexivity|].
  cbn [committed_each flat_map app fold_left].
  rewrite dispatch_then_commit. apply IH.
Qed.

Lemma committed_each_rendered (evs : list Event) :
  rendered_between_clicks (committed_each evs) = true.
Proof.
  unfold rendered_between_clicks.
  induction evs as [|ev evs IH]; [reflexivity|].
  cbn [committed_each flat_map app].
  destruct ev as [p | key | e answer | i o]; try exact IH.
  destruct e; exact IH.
Qed.

(** ** What the schedules with a render between the clicks maintain *)

Lemma commit_ok (s : Instance) :
  length (in_flight s) = (if isSummarizing s then 1%nat else 0%nat) ->
  page_ok false (commit s).
Proof.
  intros Hfl. split; [exact Hfl|]. intros _.
  unfold button_enabled, commit, render. simpl.
  destruct (isOpen (props s)); [|discriminate].
  destruct (memo (props s)); [|discriminate]. simpl.
  destruct (summary s =? ""); [|discriminate].
  destruct (isSummarizing s); [discriminate | reflexivity].
Qed.

Lemma settle_pending (i : nat) (o : FetchOutcome) (s : Instance) :
  length (in_flight s) = (if isSummarizing s then 1%nat else 0%nat) ->
  length (in_flight (settle i o s))
  = (if isSummarizing (settle i o s) then 1%nat else 0%nat) /\
  (isSummarizing s = false -> isSummarizing (settle i o s) = false).
Proof.
  destruct s as [pr su busy ls ov fl cs]. unfold settle. simpl.
  intros Hfl. destruct (nth_error fl i) eqn:Hnth; simpl; [|auto].
  destruct busy.
  - destruct fl as [|x [|y fl]]; try discriminate Hfl.
    destruct i as [|j]; [|destruct j; discriminate Hnth].
    destruct o as [[|] data|]; simpl; auto.
  - destruct fl; [|discriminate Hfl]. destruct i; discriminate Hnth.
Qed.

Lemma other_click_pending (e : Element) (answer : bool) (s : Instance) :
  e <> SummarizeButton ->
  isSummarizing
    (handleBackdropClick (mkMouseEvent e Backdrop) (onClick e answer s))
  = isSummarizing s /\
  in_flight
    (handleBackdropClick (mkMouseEvent e Backdrop) (onClick e answer s))
  = in_flight s.
Proof.
  intros He. destruct s as [[m o c ed d] su busy ls ov fl cs].
  destruct e; try contradiction; simpl;
    unfold handleBackdropClick, handleEdit, handleDelete; simpl;
    destruct m; try destruct answer; simpl; auto.
Qed.

Lemma summarize_click_pending (answer : bool) (s : Instance) :
  isSummarizing s = false ->
  in_flight s = [] ->
  length
    (in_flight
       (handleBackdropClick (mkMouseEvent SummarizeButton Backdrop)
          (onClick SummarizeButton answer s)))
  = (if isSummarizing
          (handleBackdropClick (mkMouseEvent SummarizeButton Backdrop)
             (onClick SummarizeButton answer s))
     then 1%nat else 0%nat).
Proof.
  destruct s as [[m o c ed d] su busy ls ov fl cs]. simpl.
  intros -> ->. unfold handleBackdropClick, handleSummarize. simpl.
  destruct m as [memo_|]; [|reflexivity].
  destruct (content memo_ =? ""); reflexivity.
Qed.

Lemma page_step_ok (clicked : bool) (pg : Page) (pev : PageEvent)
    (rest : list PageEvent) :
  page_ok clicked pg ->
  rendered_between_clicks_from clicked (pev :: rest) = true ->
  exists clicked',
    page_ok clicked' (page_step pg pev) /\
    rendered_between_clicks_from clicked' rest = true.
Proof.
  intros [Hfl Hclean] Hsched.
  destruct pev as [[p | key | e answer | i o] | ].
  - exists false. split; [|exact Hsched]. simpl. apply commit_ok.
    destruct (rerender_frame p (instance pg)) as [_ [-> [-> _]]]. exact Hfl.
  - exists clicked. split; [|exact Hsched]. simpl.
    destruct (keydown_frame_all key (instance pg))
      as [_ [_ [Hbusy [_ [_ Hpending]]]]].
    split; simpl.
    + rewrite Hbusy, Hpending. exact Hfl.
    + rewrite Hbusy. exact Hclean.
  - assert (Hcase : e = SummarizeButton \/ e <> SummarizeButton)
      by (destruct e; auto; right; discriminate).
    destruct Hcase as [-> | He].
    + cbn [rendered_between_clicks_from] in Hsched.
      apply andb_true_iff in Hsched. destruct Hsched as [Hfirst Hrest].
      destruct clicked; [discriminate Hfirst|].
      exists true. split; [|exact Hrest].
      split; [|intros Habs; discriminate Habs].
      simpl. unfold dispatch_click.
      pose proof (Hclean eq_refl) as Henabled. unfold button_enabled in Henabled.
      destruct (committed pg) as [v|]; [|exact Hfl].
      destruct (receives_clicks v SummarizeButton); [|exact Hfl].
      specialize (Henabled eq_refl). cbn [instance].
      apply (summarize_click_pending answer); [exact Henabled|].
      rewrite Henabled in Hfl. destruct (in_flight (instance pg));
        [reflexivity | discriminate Hfl].
    + exists clicked.
      split; [|destruct e; try exact Hsched; contradiction].
      cbn [page_step]. unfold dispatch_click.
      destruct (committed pg) as [v|] eqn:Hview;
        [|exact (conj Hfl Hclean)].
      destruct (receives_clicks v e); [|exact (conj Hfl Hclean)].
      destruct (other_click_pending e answer (instance pg) He)
        as [Hbusy Hpending].
      split; cbn [instance].
      * rewrite Hbusy, Hpending. exact Hfl.
      * rewrite Hbusy. intros Hc Hen. apply Hclean; [exact Hc|].
        unfold button_enabled in *. rewrite Hview. exact Hen.
  - exists clicked. split; [|exact Hsched]. simpl.
    destruct (settle_pending i o (instance pg) Hfl) as [Hfl' Hstay].
    split; simpl; [exact Hfl'|].
    intros Hc Hen. apply Hstay. apply Hclean; assumption.
  - exists false. split; [|exact Hsched]. simpl. apply commit_ok. exact Hfl.
Qed.

Lemma page_fold_ok (pevs : list PageEvent) (clicked : bool) (pg : Page) :
  page_ok clicked pg ->
  rendered_between_clicks_from clicked pevs = true ->
  exists clicked', page_ok clicked' (fold_left page_step pevs pg).
Proof.
  revert clicked pg.
  induction pevs as [|pev rest IH]; intros clicked pg Hok Hsched.
  - exists clicked. exact Hok.
  - destruct (page_step_ok clicked pg pev rest Hok Hsched)
      as [clicked' [Hok' Hsched']].
    simpl. apply (IH clicked' _ Hok' Hsched').
Qed.

Lemma mount_pending (p : Props) :
  length (in_flight (mount p))
  = (if isSummarizing (mount p) then 1%nat else 0%nat).
Proof.
  destruct p as [m o c e d]. unfold mount, effect_body, addEventListener.
  destruct o; reflexivity.
Qed.

(** C8, as amended: on every schedule of events and commits in which the
    component is rendered between two clicks on the summarize button, at
    most one request is pending at every point; one is pending exactly when
    [isSummarizing] is set; the button, when rendered, is disabled exactly
    when the flag is set; and once the flag has been committed a click on
    the button changes nothing. *)
Theorem one_request_in_flight_with_render_between_clicks
    (p0 : Props) (pevs : list PageEvent) :
  rendered_between_clicks pevs = true ->
  let pg := page_run p0 pevs in
  (length (in_flight (instance pg)) <= 1)%nat /\
  (isSummarizing (instance pg) = true <-> in_flight (instance pg) <> []) /\
  (forall v disabled,
     render (instance pg) = Some v -> summarize_button v = Some disabled ->
     disabled = isSummarizing (instance pg)) /\
  (forall answer,
     isSummarizing (instance pg) = true ->
     page_step (page_step pg Commit) (Dispatch (Click SummarizeButton answer))
     = page_step pg Commit).
Proof.
  intros Hsched pg.
  destruct (page_fold_ok pevs false (commit (mount p0))
              (commit_ok _ (mount_pending p0)) Hsched) as [clicked [Hfl _]].
  fold (page_run p0 pevs) in Hfl. fold pg in Hfl. clearbody pg.
  destruct pg as [[[m o c e d] su busy ls ov fl cs] view]. simpl in *.
  split; [|split; [|split]].
  - destruct busy; rewrite Hfl; auto.
  - split.
    + intros ->. destruct fl; [discriminate Hfl | discriminate].
    + destruct busy; [reflexivity|].
      destruct fl; [congruence | discriminate Hfl].
  - unfold render. simpl. intros v disabled Hv Hb.
    destruct o, m; try discriminate Hv. inversion Hv; subst v. simpl in Hb.
    destruct (su =? ""); [|discriminate Hb]. congruence.
  - intros answer ->. unfold commit, dispatch_click, render, receives_clicks.
    simpl. destruct o, m; try reflexivity. simpl.
    destruct (su =? ""); reflexivity.
Qed.

Lemma one_request_in_flight_with_render_between_clicks_witness :
  rendered_between_clicks click_commit_click = true /\
  in_flight (instance (page_run (open_on groceries) click_commit_click))
  = ["milk, eggs, bread"] /\
  (length
     (in_flight (instance (page_run (open_on groceries) click_commit_click)))
   <= 1)%nat.
Proof.
  split; [reflexivity|]. split; [reflexivity|].
  destruct (one_request_in_flight_with_render_between_clicks
              (open_on groceries) click_commit_click eq_refl)
    as [Hone _].
  exact Hone.
Defined.

(** C8, as stated, fails for two clicks on the button that are dispatched
    before React commits the state the first one set: the committed button
    is not disabled yet, both clicks reach [handleSummarize], and two
    requests are pending. *)
Lemma double_click_counterexample :
  rendered_between_clicks double_click = false /\
  in_flight (instance (page_run (open_on groceries) double_click))
  = ["milk, eggs, bread"; "milk, eggs, bread"] /\
  calls (instance (page_run (open_on groceries) double_click))
  = [Fetch "/api/summarize" "POST"
       (JObject [("content", JString "milk, eggs, bread")]);
     Fetch "/api/summarize" "POST"
       (JObject [("content", JString "milk, eggs, bread")])] /\
  ~ (length
       (in_flight (instance (page_run (open_on groceries) double_click)))
     <= 1)%nat.
Proof.
  split; [reflexivity|]. split; [reflexivity|]. split; [reflexivity|].
  simpl. lia.
Qed.

End PageProperties.
